(** * Motor (Papagayo engine): lifecycle of the engine and of its managers

    A shallow embedding of
      - [Engine/src/PapagayoEngine.cpp]       (singleton, init, update, run, clean)
      - [Engine/src/Graphics/RenderManager.cpp] (start, update)
      - the UIManager translation unit        (setUpInstance, start, update)
      - the Scene, Manager and OgreContext class declarations.

    The C++ code is sequential and effectful: it reads and writes static
    pointers, allocates and frees objects, calls into Ogre/CEGUI and throws
    C++ exceptions.  It is embedded in a state-and-exception monad over an
    explicit process state; every call that leaves the translated files is
    answered by an oracle and recorded, with its outcome, in a ghost log. *)

From stdpp Require Import gmap strings list fin_maps pretty.
From Stdlib Require Import ZArith Lia.

Local Open Scope string_scope.

(** ** Values thrown and results of calls *)

(** What a [catch (const std::exception&)] clause can tell apart: objects
    derived from [std::exception] (with their [what()] text;
    [std::runtime_error] is one of them) and every other thrown value, such
    as the string literal thrown by [PapagayoEngine::getInstance]. *)
Inductive exn : Type :=
| StdException (what : string)
| Foreign (payload : string).

(** Result of running a piece of the program.  [Undefined] is undefined
    behaviour (freeing storage that is not live); no handler catches it. *)
Inductive res (A : Type) : Type :=
| Normal (a : A)
| Raised (e : exn)
| Undefined.
Arguments Normal {A} a.
Arguments Raised {A} e.
Arguments Undefined {A}.

(** Addresses of heap objects; a C++ pointer is [option ptr], with [None]
    for [nullptr]. *)
Definition ptr := positive.

Inductive ManID : Type := Physics | Render | UI.

(** The data members the translated code touches. *)
Record Manager : Type := MkManager {
  _compsList : list ptr;
  _manId : ManID
}.

Inductive Object : Type :=
| PapagayoEngineObj (appName_ : string)
| UIManagerObj (base : Manager).

(** ** Calls that leave the translated files

    One constructor per statement of the translated functions that runs
    code of another file:
    - [OgreContext::setupInstance(appName)],
      [ResourceManager::setupInstance(path)], [SceneManager::setupInstance()];
    - [OgreContext::getInstance()->setupRTShaderGenerator()];
    - [new MeshComponent()];
    - [...->renderOneFrame()] on the Ogre root;
    - [SceneManager::getInstance()->clean()],
      [ResourceManager::getInstance()->clean()];
    - the statements of the [UIManager] constructor, all of them calls into
      Ogre and CEGUI;
    - the virtual [cmp->setUp()] and [cmp->update()] of a component. *)

Inductive Call : Type :=
| OgreContext_setupInstance (appName : string)
| ResourceManager_setupInstance (path : string)
| SceneManager_setupInstance
| OgreContext_setupRTShaderGenerator
| MeshComponent_ctor
| Root_renderOneFrame
| SceneManager_clean
| ResourceManager_clean
| UIManager_ctor_body
| Component_setUp (cmp : ptr)
| Component_update (cmp : ptr).

(** Outcome of such a call: it returns (the [bool] is the value of the calls
    declared to return one, and is meaningless for the others) or throws. *)
Inductive outcome : Type :=
| Returns (b : bool)
| Throws (e : exn).

Inductive Event : Type :=
| Called (c : Call) (o : outcome)
| LoopTest (flag : bool).

Global Instance exn_eq_dec : EqDecision exn.
Proof. solve_decision. Defined.
Global Instance outcome_eq_dec : EqDecision outcome.
Proof. solve_decision. Defined.
Global Instance Call_eq_dec : EqDecision Call.
Proof. solve_decision. Defined.
Global Instance Event_eq_dec : EqDecision Event.
Proof. solve_decision. Defined.

Section Program.

(** State of the collaborators (Ogre, CEGUI, the other managers, the
    components): abstract. *)
Context {Ext : Type}.

(** What code outside the translated files can read and write: its own
    state and the engine's [running_] member, which no function of
    PapagayoEngine.cpp assigns and [run] reads. *)
Record World : Type := MkWorld {
  ext : Ext;
  running_ : bool
}.

(** The oracle: how the outside answers a call in a given world. *)
Variable outside : Call -> World -> outcome * World.

Record Process : Type := MkProcess {
  world : World;
  heap : gmap ptr Object;            (* live objects *)
  next_ptr : ptr;                    (* allocator cursor *)
  engine_instance_ : option ptr;     (* PapagayoEngine::instance_ *)
  ui_instance_ : option ptr;         (* UIManager::instance_ *)
  log : list Event                   (* ghost: what happened, oldest first *)
}.

Definition M (A : Type) : Type := Process -> res A * Process.

Definition ret {A} (a : A) : M A := fun p => (Normal a, p).

Definition bind {A B} (m : M A) (k : A -> M B) : M B :=
  fun p =>
    match m p with
    | (Normal a, p') => k a p'
    | (Raised e, p') => (Raised e, p')
    | (Undefined, p') => (Undefined, p')
    end.

Definition throw {A} (e : exn) : M A := fun p => (Raised e, p).

(** [try { m } catch (const std::exception& e) { h e }] *)
Definition try_catch_std {A} (m : M A) (h : string -> M A) : M A :=
  fun p =>
    match m p with
    | (Raised (StdException w), p') => h w p'
    | r => r
    end.

(** [try { m } catch (...) { h }] *)
Definition try_catch_all {A} (m : M A) (h : M A) : M A :=
  fun p =>
    match m p with
    | (Raised _, p') => h p'
    | r => r
    end.

Definition tell (e : Event) : M unit :=
  fun p => (Normal tt,
            MkProcess (world p) (heap p) (next_ptr p)
                      (engine_instance_ p) (ui_instance_ p) (log p ++ [e])).

(** A call to the outside: the oracle answers, the world moves on and the
    call is logged with its outcome. *)
Definition call (c : Call) : M bool :=
  fun p =>
    let '(o, w') := outside c (world p) in
    let p' := MkProcess w' (heap p) (next_ptr p)
                        (engine_instance_ p) (ui_instance_ p)
                        (log p ++ [Called c o]) in
    match o with
    | Returns b => (Normal b, p')
    | Throws e => (Raised e, p')
    end.

(** [operator new] followed by the stores of a constructor that cannot
    throw. *)
Definition alloc (o : Object) : M ptr :=
  fun p =>
    let a := next_ptr p in
    (Normal a,
     MkProcess (world p) (<[a:=o]> (heap p)) (Pos.succ a)
               (engine_instance_ p) (ui_instance_ p) (log p)).

(** [operator delete] on an address. *)
Definition free (a : ptr) : M unit :=
  fun p =>
    match heap p !! a with
    | Some _ =>
        (Normal tt,
         MkProcess (world p) (delete a (heap p)) (next_ptr p)
                   (engine_instance_ p) (ui_instance_ p) (log p))
    | None => (Undefined, p)
    end.

(** [delete q]: nothing for [nullptr]. *)
Definition delete_ (q : option ptr) : M unit :=
  match q with
  | None => ret tt
  | Some a => free a
  end.

Definition get_engine_instance : M (option ptr) :=
  fun p => (Normal (engine_instance_ p), p).

Definition set_engine_instance (q : option ptr) : M unit :=
  fun p => (Normal tt,
            MkProcess (world p) (heap p) (next_ptr p) q (ui_instance_ p) (log p)).

Definition get_ui_instance : M (option ptr) :=
  fun p => (Normal (ui_instance_ p), p).

Definition set_ui_instance (q : option ptr) : M unit :=
  fun p => (Normal tt,
            MkProcess (world p) (heap p) (next_ptr p) (engine_instance_ p) q (log p)).

Definition get_running : M bool :=
  fun p => (Normal (running_ (world p)), p).

Notation "x <- m ;; k" := (bind m (fun x => k))
  (at level 100, m at next level, right associativity).
Notation "m ;;; k" := (bind m (fun _ => k))
  (at level 100, right associativity).

(** ** PapagayoEngine.cpp *)

(** The escape [\n] of the C++ string literals. *)
Definition nl : string := String (Ascii.ascii_of_nat 10) "".

(** [bool PapagayoEngine::setupInstance(const std::string& appName)] *)
Definition PapagayoEngine_setupInstance (appName : string) : M bool :=
  i <- get_engine_instance ;;
  match i with
  | None =>
      a <- alloc (PapagayoEngineObj appName) ;;
      set_engine_instance (Some a) ;;;
      ret true
  | Some _ => ret false
  end.

(** [PapagayoEngine* PapagayoEngine::getInstance()] *)
Definition PapagayoEngine_getInstance : M (option ptr) :=
  i <- get_engine_instance ;;
  match i with
  | None =>
      ok <- PapagayoEngine_setupInstance "PAPAGAYO ENGINE" ;;
      if negb ok
      then throw (Foreign ("ERROR: PapagayoEngine couldn't be created" +:+ nl))
      else get_engine_instance
  | Some _ => get_engine_instance
  end.

(** [void PapagayoEngine::clean()] *)
Definition PapagayoEngine_clean : M unit :=
  call SceneManager_clean ;;;
  call ResourceManager_clean ;;;
  i <- get_engine_instance ;;
  delete_ i.

(** [std::runtime_error(prefix + e.what() + "\n")] *)
Definition runtime_error (prefix what : string) : exn :=
  StdException (prefix +:+ what +:+ nl).

(** [void PapagayoEngine::init()] *)
Definition PapagayoEngine_init : M unit :=
  try_catch_std (call (OgreContext_setupInstance "PAPAGAYO ENGINE") ;;; ret tt)
    (fun w => throw (runtime_error ("OgreContext init fail " +:+ nl) w)) ;;;
  try_catch_std (call (ResourceManager_setupInstance "assets/") ;;; ret tt)
    (fun w => throw (runtime_error ("ResourceManager init fail " +:+ nl) w)) ;;;
  try_catch_std (call SceneManager_setupInstance ;;; ret tt)
    (fun w => throw (runtime_error ("SceneManager init fail " +:+ nl) w)) ;;;
  call OgreContext_setupRTShaderGenerator ;;;
  call MeshComponent_ctor ;;;
  ret tt.

(** [void PapagayoEngine::update()] *)
Definition PapagayoEngine_update : M unit :=
  try_catch_std (call Root_renderOneFrame ;;; ret tt)
    (fun w => throw (runtime_error ("Fallo de renderizado " +:+ nl) w)).

(** The [while (running_) { update(); }] loop of [run].  The loop need not
    end, so it is run on fuel: [None] is "fuel exhausted". *)
Fixpoint main_loop (fuel : nat) (p : Process) : option (res unit * Process) :=
  match fuel with
  | O => None
  | S fuel' =>
      match (r <- get_running ;; tell (LoopTest r) ;;; ret r) p with
      | (Normal true, p1) =>
          match PapagayoEngine_update p1 with
          | (Normal _, p2) => main_loop fuel' p2
          | (Raised e, p2) => Some (Raised e, p2)
          | (Undefined, p2) => Some (Undefined, p2)
          end
      | (Normal false, p1) => Some (Normal tt, p1)
      | (Raised e, p1) => Some (Raised e, p1)
      | (Undefined, p1) => Some (Undefined, p1)
      end
  end.

(** [void PapagayoEngine::run()] *)
Definition PapagayoEngine_run (fuel : nat) (p : Process) : option (res unit * Process) :=
  match PapagayoEngine_init p with
  | (Normal _, p1) => main_loop fuel p1
  | (Raised e, p1) => Some (Raised e, p1)
  | (Undefined, p1) => Some (Undefined, p1)
  end.

(** ** UIManager *)

(** [new UIManager()]: storage with the base sub-object built by
    [Manager(ManID::UI)] (an empty component list), then the constructor
    body, which only talks to Ogre and CEGUI; when the body throws, the
    storage is released and the exception goes on. *)
Definition new_UIManager : M ptr :=
  a <- alloc (UIManagerObj (MkManager [] UI)) ;;
  (fun p =>
     match call UIManager_ctor_body p with
     | (Raised e, p') => (free a ;;; throw e) p'
     | (Normal _, p') => (Normal a, p')
     | (Undefined, p') => (Undefined, p')
     end).

(** [bool UIManager::setUpInstance()].  The [try] block either falls
    through ([None]) or its handler returns from the function ([Some b]). *)
Definition UIManager_setUpInstance : M bool :=
  i <- get_ui_instance ;;
  early <- match i with
           | None =>
               try_catch_all
                 (a <- new_UIManager ;; set_ui_instance (Some a) ;;; ret None)
                 (ret (Some false))
           | Some _ => ret None
           end ;;
  match early with
  | Some b => ret b
  | None => ret true
  end.

(** [UIManager* UIManager::getInstance()] *)
Definition UIManager_getInstance : M (option ptr) := get_ui_instance.

(** [void UIManager::start()] and [void UIManager::update()]: empty bodies. *)
Definition UIManager_start (this : Manager) : M unit := ret tt.
Definition UIManager_update (this : Manager) : M unit := ret tt.

(** ** RenderManager.cpp *)

(** [for (Component* cmp : l) { body }] over a [std::list]. *)
Fixpoint for_each (l : list ptr) (body : ptr -> M unit) : M unit :=
  match l with
  | [] => ret tt
  | cmp :: rest => body cmp ;;; for_each rest body
  end.

(** [void RenderManager::start()] *)
Definition RenderManager_start (this : Manager) : M unit :=
  for_each (_compsList this) (fun cmp => call (Component_setUp cmp) ;;; ret tt).

(** [void RenderManager::update()] *)
Definition RenderManager_update (this : Manager) : M unit :=
  call Root_renderOneFrame ;;;
  for_each (_compsList this) (fun cmp => call (Component_update cmp) ;;; ret tt).

End Program.

Notation "x <- m ;; k" := (bind m (fun x => k))
  (at level 100, m at next level, right associativity).
Notation "m ;;; k" := (bind m (fun _ => k))
  (at level 100, right associativity).

(** ** Client sequences

    Callers of the singleton interface, used to speak about "every
    subsequent call". *)

Inductive EngineCall : Type :=
| DoSetupInstance (appName : string)
| DoGetInstance.

Inductive EngineAnswer : Type :=
| AnsBool (b : bool)
| AnsPtr (q : option ptr).

Definition expected_answer (a : ptr) (c : EngineCall) : EngineAnswer :=
  match c with
  | DoSetupInstance _ => AnsBool false
  | DoGetInstance => AnsPtr (Some a)
  end.

Section Clients.
Context {Ext : Type}.

Definition engine_call (c : EngineCall) : @M Ext EngineAnswer :=
  match c with
  | DoSetupInstance n => b <- PapagayoEngine_setupInstance n ;; ret (AnsBool b)
  | DoGetInstance => q <- PapagayoEngine_getInstance ;; ret (AnsPtr q)
  end.

Fixpoint engine_calls (cs : list EngineCall) : @M Ext (list EngineAnswer) :=
  match cs with
  | [] => ret []
  | c :: rest =>
      a <- engine_call c ;;
      more <- engine_calls rest ;;
      ret (a :: more)
  end.

Variable outside : Call -> @World Ext -> outcome * @World Ext.

Fixpoint ui_setups (n : nat) : @M Ext (list bool) :=
  match n with
  | O => ret []
  | S n' =>
      b <- UIManager_setUpInstance outside ;;
      more <- ui_setups n' ;;
      ret (b :: more)
  end.

End Clients.

(** ** Scene *)

(** The data members of [class Scene]; an [Entity*] is an address. *)
Record Scene : Type := MkScene {
  entities : gmap string ptr;
  usedNames : gmap string Z;
  name : string
}.

Definition Scene_new : Scene := MkScene ∅ ∅ "".

(** [name + "_" + std::to_string(n)] *)
Definition disambiguated (nm : string) (n : Z) : string :=
  nm +:+ "_" +:+ pretty n.

(** Modelled from the spec: [Scene::addEntity], of which the translated
    files hold only the declaration.  An unused name is inserted as it is; a
    name in use bumps the counter kept for it in [usedNames] (starting from
    zero) and the entity goes under the name, an underscore and the new
    counter value, so that the numbering starts at 1 as in the
    specification's example ("Enemy", "Enemy_1", "Enemy_2").  The counter is
    an [int] in the class declaration; it is kept in [Z] here, and the
    theorem about it says up to which number of uses its values are values
    of [int].  The disambiguated name is not looked up before it is used:
    the specification describes no such test. *)
Definition Scene_addEntity (nm : string) (ent : ptr) (s : Scene) : Scene :=
  match entities s !! nm with
  | None => MkScene (<[nm:=ent]> (entities s)) (usedNames s) (name s)
  | Some _ =>
      let n := (default 0 (usedNames s !! nm) + 1)%Z in
      MkScene (<[disambiguated nm n:=ent]> (entities s))
              (<[nm:=n]> (usedNames s)) (name s)
  end.


(** Adding the entities of a list, in order, all under one base name. *)
Definition add_all (nm : string) (ents : list ptr) (s : Scene) : Scene :=
  foldl (fun sc e => Scene_addEntity nm e sc) s ents.







(** ** Concrete worlds

    A scripted outside: its state is the list of answers still to give, each
    with the value it leaves in [running_]; when the script is over every
    call returns [true] and leaves the flag alone. *)
Definition Script : Type := list (outcome * bool).

Definition scripted (c : Call) (w : @World Script) : outcome * @World Script :=
  match ext w with
  | [] => (Returns true, w)
  | (o, flag) :: rest => (o, MkWorld rest flag)
  end.

Definition boot (script : Script) (flag : bool) : @Process Script :=
  MkProcess (MkWorld script flag) ∅ 1%positive None None [].

(** The calls recorded in a log, without their outcomes. *)
Definition calls_of (l : list Event) : list Call :=
  omap (fun e => match e with Called c _ => Some c | LoopTest _ => None end) l.

(** The calls [init] makes when nothing throws, in program order. *)
Definition init_calls : list Call :=
  [ OgreContext_setupInstance "PAPAGAYO ENGINE";
    ResourceManager_setupInstance "assets/";
    SceneManager_setupInstance;
    OgreContext_setupRTShaderGenerator;
    MeshComponent_ctor ].

(** ** Vocabulary of the statements and example worlds *)

(** A process in which the engine singleton has been created once. *)
Definition engine_up : @Process Script :=
  snd (PapagayoEngine_setupInstance "game" (boot [] true)).

(** A process in which the UIManager singleton has been created once. *)
Definition ui_up : @Process Script :=
  snd (UIManager_setUpInstance scripted (boot [] true)).

(** A world whose first answer is a thrown string literal. *)
Definition ctor_throws : @Process Script :=
  boot [(Throws (Foreign "CEGUI"), true)] true.

(** An event that is a call which returned. *)
Definition returned (e : Event) : Prop :=
  match e with
  | Called _ (Returns _) => True
  | _ => False
  end.

(** What [init] lets out when call [c] threw [e]: the three guarded
    [setupInstance] calls have a [std::exception] replaced by a
    [runtime_error] that names the subsystem; anything else goes through as
    it was thrown. *)
Definition init_rethrown (c : Call) (e : exn) : exn :=
  match c, e with
  | OgreContext_setupInstance _, StdException w =>
      runtime_error ("OgreContext init fail " +:+ nl) w
  | ResourceManager_setupInstance _, StdException w =>
      runtime_error ("ResourceManager init fail " +:+ nl) w
  | SceneManager_setupInstance, StdException w =>
      runtime_error ("SceneManager init fail " +:+ nl) w
  | _, _ => e
  end.

(** What [update] lets out when [renderOneFrame] threw [e]. *)
Definition update_rethrown (e : exn) : exn :=
  match e with
  | StdException w => runtime_error ("Fallo de renderizado " +:+ nl) w
  | Foreign _ => e
  end.

(** The shape of what a run of [init] appends to the log, by its result. *)
Definition init_shape (r : res unit) (evs : list Event) : Prop :=
  calls_of evs = take (length evs) init_calls /\
  match r with
  | Normal _ => length evs = length init_calls /\ Forall returned evs
  | Raised e' =>
      exists (done : list Event) (c : Call) (e : exn),
        evs = (done ++ [Called c (Throws e)])%list /\
        Forall returned done /\
        e' = init_rethrown c e
  | Undefined => False
  end.

(** The world a frame leaves, the world after [k] frames, and what the
    main loop logs while it runs [k] frames. *)
Definition frame_world {Ext} (outside : Call -> @World Ext -> outcome * @World Ext)
    (w : @World Ext) : @World Ext :=
  snd (outside Root_renderOneFrame w).

Fixpoint world_after {Ext} (outside : Call -> @World Ext -> outcome * @World Ext)
    (k : nat) (w : @World Ext) : @World Ext :=
  match k with
  | O => w
  | S k' => world_after outside k' (frame_world outside w)
  end.

Fixpoint frames_log {Ext} (outside : Call -> @World Ext -> outcome * @World Ext)
    (k : nat) (w : @World Ext) : list Event :=
  match k with
  | O => []
  | S k' =>
      LoopTest true
        :: Called Root_renderOneFrame (fst (outside Root_renderOneFrame w))
        :: frames_log outside k' (frame_world outside w)
  end.

(** The flag is up at the top of each of the first [k] frames, each of them
    returns, and the flag is down after the [k]-th. *)
Definition stops_after {Ext} (outside : Call -> @World Ext -> outcome * @World Ext)
    (k : nat) (w : @World Ext) : Prop :=
  (forall i : nat, i < k ->
     running_ (world_after outside i w) = true /\
     exists b : bool,
       fst (outside Root_renderOneFrame (world_after outside i w)) = Returns b) /\
  running_ (world_after outside k w) = false.

(** Worlds for the engine examples: the first call of [init] throws a
    string literal; the fourth throws a [std::exception]; two runs of
    [init] in a row, the second finding the singletons already there. *)
Definition ogre_throws_literal : @Process Script :=
  boot [(Throws (Foreign "no display"), true)] true.

Definition shader_generator_throws : @Process Script :=
  boot [(Returns true, true); (Returns true, true); (Returns true, true);
        (Throws (StdException "RTSS"), true)] true.

Definition two_inits : @Process Script :=
  boot [(Returns true, true); (Returns true, true); (Returns true, true);
        (Returns true, true); (Returns true, true);
        (Returns false, true); (Returns false, true); (Returns false, true);
        (Returns true, true); (Returns true, true)] true.

Definition after_first_init : @Process Script :=
  snd (PapagayoEngine_init scripted two_inits).

(** Five answers for [init], then three frames; the third frame lowers
    [running_] while it runs. *)
Definition three_frames : @Process Script :=
  boot [(Returns true, true); (Returns true, true); (Returns true, true);
        (Returns true, true); (Returns true, true);
        (Returns true, true); (Returns true, true); (Returns true, false)] true.

(** The first frame throws. *)
Definition frame_throws : @Process Script :=
  boot [(Throws (StdException "GL"), true)] true.

(** What [RenderManager::update] does in a world where the RenderManager
    owns one component, for comparison with the engine's [update]. *)
Definition render_manager_with_one : Manager := MkManager [7%positive] Render.

(** [n] frames of the RenderManager, one [update] after the other. *)
Fixpoint render_frames {Ext} (outside : Call -> @World Ext -> outcome * @World Ext)
    (n : nat) (this : Manager) : @M Ext unit :=
  match n with
  | O => ret tt
  | S n' => RenderManager_update outside this ;;; render_frames outside n' this
  end.

(** The shape of what a component loop appends to the log, by its result:
    [mk] is the call made on each component, [l] the list walked. *)
Definition loop_shape (mk : ptr -> Call) (l : list ptr)
    (r : res unit) (evs : list Event) : Prop :=
  match r with
  | Normal _ => calls_of evs = map mk l /\ Forall returned evs
  | Raised e =>
      exists (done : list Event) (cmp : ptr) (n : nat),
        evs = (done ++ [Called (mk cmp) (Throws e)])%list /\
        Forall returned done /\
        calls_of done = map mk (take n l) /\
        l !! n = Some cmp
  | Undefined => False
  end.

(** Two components with the RenderManager. *)
Definition render_manager_with_two : Manager := MkManager [7%positive; 9%positive] Render.

(** The type names a manager has a factory for: the constructor of the
    RenderManager makes four [registerComponent] calls, the constructor of
    the UIManager none. *)
Definition RenderManager_types : list string :=
  ["MeshComponent"; "Camera"; "LightComponent"; "PlaneComponent"].

Definition UIManager_types : list string := [].

(** Modelled from the spec: [Manager::addComponent(entity, typeName)], which
    is not among the translated files.  For a type name with a registered
    factory the component the factory makes, [cmp], is appended to the
    manager's list; for any other name the request fails ([None]) and
    nothing is changed.  The entity's own list of components is no member
    of the manager and is left out. *)
Definition Manager_addComponent (types : list string) (typeName : string)
    (cmp : ptr) (this : Manager) : option Manager :=
  if decide (typeName ∈ types)
  then Some (MkManager (_compsList this ++ [cmp]) (_manId this))
  else None.

(** A sequence of [addComponent] requests, oldest first, each with the
    component its factory would make; a failed request leaves the manager
    as it was. *)
Definition add_components (types : list string) (reqs : list (string * ptr))
    (this : Manager) : Manager :=
  foldl (fun m rq => default m (Manager_addComponent types (fst rq) (snd rq) m))
        this reqs.

(** The components of the requests that name a registered type, in the
    order of the requests. *)
Definition inserted (types : list string) (reqs : list (string * ptr)) : list ptr :=
  omap (fun rq => if decide (fst rq ∈ types) then Some (snd rq) else None) reqs.

(** Requests for two components of the RenderManager, with one for a type
    that no manager here has registered in between. *)
Definition camera_button_mesh : list (string * ptr) :=
  [("Camera", 7%positive); ("Button", 8%positive); ("MeshComponent", 9%positive)].




(** ** More of the UIManager: [clean], [destroy] *)

Section Teardown.
Context {Ext : Type}.

(** How [CEGUI::OgreRenderer::destroySystem()] answers in a given world; it
    is not one of the logged calls. *)
Variable destroySystem : @World Ext -> outcome * @World Ext.

(** [void UIManager::clean()]: empty body. *)
Definition UIManager_clean : @M Ext unit := ret tt.

Definition CEGUI_destroySystem : @M Ext unit :=
  fun p =>
    let '(o, w') := destroySystem (world p) in
    (match o with
     | Returns _ => Normal tt
     | Throws e => Raised e
     end,
     MkProcess w' (heap p) (next_ptr p) (engine_instance_ p) (ui_instance_ p) (log p)).

(** [void UIManager::destroy()] *)
Definition UIManager_destroy : @M Ext unit :=
  UIManager_clean ;;;
  CEGUI_destroySystem ;;;
  i <- get_ui_instance ;;
  delete_ i.

End Teardown.

(** The flag is up at the top of every frame and every frame returns. *)
Definition never_stops {Ext} (outside : Call -> @World Ext -> outcome * @World Ext)
    (w : @World Ext) : Prop :=
  forall i : nat,
    running_ (world_after outside i w) = true /\
    exists b : bool,
      fst (outside Root_renderOneFrame (world_after outside i w)) = Returns b.

(** An event that is one of the calls of [init]. *)
Definition init_call_event (ev : Event) : Prop :=
  match ev with
  | Called c _ => c ∈ init_calls
  | LoopTest _ => False
  end.

(** Worlds for the examples of this part: the scene manager's [clean]
    throws; a quiet [destroySystem]. *)
Definition scene_clean_throws : @Process Script :=
  MkProcess (MkWorld [(Throws (StdException "scene"), true)] true)
            (heap engine_up) (next_ptr engine_up) (engine_instance_ engine_up)
            (ui_instance_ engine_up) [].

Definition quiet_destroySystem (w : @World Script) : outcome * @World Script :=
  (Returns true, w).

(** ** A second monad: an object, its surroundings and the calls made

    The functions below work on the data members of one object and call
    into libraries whose calls the log of the engine has no name for.  They
    run in a monad of their own kind: the state holds the members of the
    object, the state of the surroundings and the calls made so far, each
    with what it answered. *)

Inductive reply (Ans : Type) : Type :=
| Answer (a : Ans)
| Thrown (e : exn).
Arguments Answer {Ans} a.
Arguments Thrown {Ans} e.

Section Traced.
Context {Fields Around Cl Ans : Type}.

Record Run : Type := MkRun {
  fields : Fields;
  around : Around;
  made : list (Cl * reply Ans)
}.

Variable answers : Cl -> Around -> reply Ans * Around.

Definition T (A : Type) : Type := Run -> res A * Run.

Definition t_ret {A} (a : A) : T A := fun r => (Normal a, r).

Definition t_bind {A B} (m : T A) (k : A -> T B) : T B :=
  fun r =>
    match m r with
    | (Normal a, r') => k a r'
    | (Raised e, r') => (Raised e, r')
    | (Undefined, r') => (Undefined, r')
    end.

Definition t_undefined {A} : T A := fun r => (Undefined, r).

(** [try { m } catch (std::exception& e) { h e }] *)
Definition t_try_std {A} (m : T A) (h : string -> T A) : T A :=
  fun r =>
    match m r with
    | (Raised (StdException w), r') => h w r'
    | x => x
    end.

Definition ask (c : Cl) : T Ans :=
  fun r =>
    let '(o, w') := answers c (around r) in
    let r' := MkRun (fields r) w' (made r ++ [(c, o)]) in
    match o with
    | Answer a => (Normal a, r')
    | Thrown e => (Raised e, r')
    end.

Definition get_fields : T Fields := fun r => (Normal (fields r), r).

Definition set_fields (f : Fields) : T unit :=
  fun r => (Normal tt, MkRun f (around r) (made r)).

End Traced.

Notation "x <~ m ;; k" := (t_bind m (fun x => k))
  (at level 100, m at next level, right associativity).
Notation "m ;;~ k" := (t_bind m (fun _ => k))
  (at level 100, right associativity).

(** The calls a run has made, without their answers. *)
Definition asked {Fields Around Cl Ans} (r : @Run Fields Around Cl Ans) : list Cl :=
  map fst (made r).

(** ** The rest of the UIManager: schemes, layouts, widgets, input *)

Inductive MouseButton : Type := LeftButton | RightButton.

(** The kinds of window the UIManager creates, each the suffix of a window
    type. *)
Inductive WidgetKind : Type := Button | Slider | Label | StaticImage.

Definition kind_suffix (k : WidgetKind) : string :=
  match k with
  | Button => "/Button"
  | Slider => "/Slider"
  | Label => "/Label"
  | StaticImage => "/StaticImage"
  end.

Section Widgets.

(** [float]: values are handed on, never computed with. *)
Context {F : Type}.

(** Calls into CEGUI, Ogre and the standard streams.  A [Window*] is an
    [option ptr]; [injectMousePosition] takes two [float]s and
    [notifyDisplaySizeChanged] a [CEGUI::Sizef], a pair of [float]s. *)
Inductive GuiCall : Type :=
| GUIContext_injectMouseButtonDown (b : MouseButton)
| GUIContext_injectMouseButtonUp (b : MouseButton)
| GUIContext_injectMousePosition (x y : F)
| RenderWindow_getMetrics
| System_notifyDisplaySizeChanged (width height : F)
| SchemeManager_createFromFile (file : string)
| FontManager_createFromFile (file : string)
| GUIContext_setDefaultFont (font : string)
| Font_setAutoScaled_Disabled
| MouseCursor_setDefaultImage (image : string)
| MouseCursor_setImage (image : string)
| MouseCursor_show
| MouseCursor_hide
| WindowManager_loadLayoutFromFile (file : string)
| WindowManager_createWindow (type : string) (name : option string)
| Window_setPosition (w : option ptr) (x y : F)
| Window_setSize (w : option ptr) (width height : F)
| Window_setText (w : option ptr) (text : string)
| Window_setRotation (w : option ptr)
| Window_setName (w : option ptr) (name : string)
| Window_setProperty (w : option ptr) (property value : string)
| Window_addChild (parent child : option ptr)
| cout_write (text : string).

(** What a call hands back: nothing the caller uses, the width and height
    that [getMetrics] stores, or a [Window*]. *)
Inductive GuiAnswer : Type :=
| NoValue
| Metrics (width height : Z)
| WindowPtr (w : option ptr).

(** [unsigned int width = 0, height = 0; rw->getMetrics(width, height, ...)]:
    the variables hold what the call stored, and zero if it stored
    nothing. *)
Definition stored_metrics (a : GuiAnswer) : Z * Z :=
  match a with
  | Metrics w h => (w, h)
  | _ => (0, 0)%Z
  end.

Definition returned_window (a : GuiAnswer) : option ptr :=
  match a with
  | WindowPtr w => w
  | _ => None
  end.

(** The data members of the UIManager that its own code reads or writes. *)
Record UIFields : Type := MkUIFields {
  schemeName : string;
  winRoot : option ptr
}.

Context {Around : Type}.
Variable answers : GuiCall -> Around -> reply GuiAnswer * Around.

Local Abbreviation G := (@T UIFields Around GuiCall GuiAnswer).
Local Abbreviation gui := (ask answers).

(** The conversion of an integer value ([unsigned int], [Sint32]) to
    [float] that the compiler inserts where such a value initialises a
    [float]: exact when the value is a [float], and otherwise one of the two
    neighbouring [float]s, which one being up to the implementation. *)
Variable to_float : Z -> F.

(** [void UIManager::windowResized(Ogre::RenderWindow* rw)]:
    [CEGUI::Sizef newSize(width, height)] converts the two [unsigned int]s
    to [float]. *)
Definition UIManager_windowResized : G unit :=
  m <~ gui RenderWindow_getMetrics ;;
  let '(width, height) := stored_metrics m in
  gui (System_notifyDisplaySizeChanged (to_float width) (to_float height)) ;;~
  t_ret tt.

(** [void UIManager::loadScheme(schemeName_, schemeFile)] *)
Definition UIManager_loadScheme (schemeName_ schemeFile : string) : G unit :=
  f <~ get_fields ;;
  set_fields (MkUIFields schemeName_ (winRoot f)) ;;~
  gui (SchemeManager_createFromFile schemeFile) ;;~
  t_ret tt.

(** [void UIManager::loadFont(filename)] *)
Definition UIManager_loadFont (filename : string) : G unit :=
  gui (FontManager_createFromFile filename) ;;~ t_ret tt.

(** [void UIManager::loadLayout(layaoutFile)] *)
Definition UIManager_loadLayout (layaoutFile : string) : G unit :=
  t_try_std
    (layout <~ gui (WindowManager_loadLayoutFromFile layaoutFile) ;;
     f <~ get_fields ;;
     gui (Window_addChild (winRoot f) (returned_window layout)) ;;~
     t_ret tt)
    (fun what => gui (cout_write what) ;;~ t_ret tt).

(** [void UIManager::setFont(fontFile)] *)
Definition UIManager_setFont (fontFile : string) : G unit :=
  gui (FontManager_createFromFile (fontFile +:+ ".font")) ;;~
  gui (GUIContext_setDefaultFont fontFile) ;;~
  gui Font_setAutoScaled_Disabled ;;~
  t_ret tt.

(** [void UIManager::setMouseImage(imageFile)] *)
Definition UIManager_setMouseImage (imageFile : string) : G unit :=
  gui (MouseCursor_setDefaultImage imageFile) ;;~
  gui (MouseCursor_setImage imageFile) ;;~
  t_ret tt.

(** [void UIManager::setMouseVisibility(bool b)] *)
Definition UIManager_setMouseVisibility (b : bool) : G unit :=
  if b
  then gui MouseCursor_show ;;~ t_ret tt
  else gui MouseCursor_hide ;;~ t_ret tt.

(** [void UIManager::setWidgetDestRect(widget, position, size)] *)
Definition UIManager_setWidgetDestRect (widget : option ptr)
    (position size : F * F) : G unit :=
  gui (Window_setPosition widget (fst position) (snd position)) ;;~
  gui (Window_setSize widget (fst size) (snd size)) ;;~
  t_ret tt.

(** [CEGUI::Window* UIManager::createButton(text, position, size, name)] *)
Definition UIManager_createButton (text : string) (position size : F * F)
    (name : string) : G (option ptr) :=
  f <~ get_fields ;;
  a <~ gui (WindowManager_createWindow (schemeName f +:+ "/Button") (Some name)) ;;
  let button := returned_window a in
  UIManager_setWidgetDestRect button position size ;;~
  gui (Window_setText button text) ;;~
  gui (Window_addChild (winRoot f) button) ;;~
  t_ret button.

(** [CEGUI::Window* UIManager::createSlider(position, size, name)] *)
Definition UIManager_createSlider (position size : F * F)
    (name : string) : G (option ptr) :=
  f <~ get_fields ;;
  a <~ gui (WindowManager_createWindow (schemeName f +:+ "/Slider") None) ;;
  let slider := returned_window a in
  UIManager_setWidgetDestRect slider position size ;;~
  gui (Window_setRotation slider) ;;~
  gui (Window_setName slider name) ;;~
  gui (Window_addChild (winRoot f) slider) ;;~
  t_ret slider.

(** [CEGUI::Window* UIManager::createLabel(text, position, size, name)] *)
Definition UIManager_createLabel (text : string) (position size : F * F)
    (name : string) : G (option ptr) :=
  f <~ get_fields ;;
  a <~ gui (WindowManager_createWindow (schemeName f +:+ "/Label") (Some name)) ;;
  let label := returned_window a in
  UIManager_setWidgetDestRect label position size ;;~
  gui (Window_setText label text) ;;~
  gui (Window_addChild (winRoot f) label) ;;~
  t_ret label.

(** [CEGUI::Window* UIManager::createImage(image, position, size, name)] *)
Definition UIManager_createImage (image : string) (position size : F * F)
    (name : string) : G (option ptr) :=
  f <~ get_fields ;;
  a <~ gui (WindowManager_createWindow (schemeName f +:+ "/StaticImage") (Some name)) ;;
  let staticImage := returned_window a in
  UIManager_setWidgetDestRect staticImage position size ;;~
  gui (Window_setProperty staticImage "FrameEnabled" "false") ;;~
  gui (Window_setProperty staticImage "BackgroundEnabled" "false") ;;~
  gui (Window_setProperty staticImage "Image" image) ;;~
  gui (Window_addChild (winRoot f) staticImage) ;;~
  t_ret staticImage.

(** The four creators by kind; [text] is the text of a button or label and
    the image of a static image. *)
Definition UIManager_create (k : WidgetKind) (text : string)
    (position size : F * F) (name : string) : G (option ptr) :=
  match k with
  | Button => UIManager_createButton text position size name
  | Slider => UIManager_createSlider position size name
  | Label => UIManager_createLabel text position size name
  | StaticImage => UIManager_createImage text position size name
  end.

(** The values of the SDL names that [captureInput] compares with; the SDL
    headers are not among the translated files. *)
Record SDL_names : Type := MkSDL {
  SDL_MOUSEBUTTONDOWN : Z;
  SDL_MOUSEBUTTONUP : Z;
  SDL_MOUSEMOTION : Z;
  SDL_BUTTON_LEFT : Z;
  SDL_BUTTON_RIGHT : Z;
  SDL_WINDOWEVENT_MAXIMIZED : Z;
  SDL_WINDOWEVENT_RESIZED : Z;
  SDL_WINDOWEVENT_SIZE_CHANGED : Z
}.

(** What [captureInput] reads of the [SDL_Event] union: [event.type],
    [event.button.button], [event.motion.x], [event.motion.y] and
    [event.window.event], each as the value the read yields. *)
Record SDL_Event : Type := MkEvent {
  event_type : Z;
  button_button : Z;
  motion_x : Z;
  motion_y : Z;
  window_event : Z
}.

Variable sdl : SDL_names.

(** [void UIManager::captureInput(const SDL_Event& event)]; the [Sint32]
    coordinates of a motion are converted to the [float] parameters of
    [injectMousePosition]. *)
Definition UIManager_captureInput (event : SDL_Event) : G unit :=
  if decide (event_type event = SDL_MOUSEBUTTONDOWN sdl) then
    if decide (button_button event = SDL_BUTTON_LEFT sdl) then
      gui (GUIContext_injectMouseButtonDown LeftButton) ;;~ t_ret tt
    else if decide (button_button event = SDL_BUTTON_RIGHT sdl) then
      gui (GUIContext_injectMouseButtonDown RightButton) ;;~ t_ret tt
    else t_ret tt
  else if decide (event_type event = SDL_MOUSEBUTTONUP sdl) then
    if decide (button_button event = SDL_BUTTON_LEFT sdl) then
      gui (GUIContext_injectMouseButtonUp LeftButton) ;;~ t_ret tt
    else if decide (button_button event = SDL_BUTTON_RIGHT sdl) then
      gui (GUIContext_injectMouseButtonUp RightButton) ;;~ t_ret tt
    else t_ret tt
  else if decide (event_type event = SDL_MOUSEMOTION sdl) then
    gui (GUIContext_injectMousePosition (to_float (motion_x event))
                                        (to_float (motion_y event))) ;;~
    t_ret tt
  else if decide (window_event event = SDL_WINDOWEVENT_MAXIMIZED sdl \/
                  window_event event = SDL_WINDOWEVENT_RESIZED sdl \/
                  window_event event = SDL_WINDOWEVENT_SIZE_CHANGED sdl) then
    UIManager_windowResized
  else t_ret tt.

End Widgets.

(** ** The RenderManager singleton *)

(** The static [RenderManager::instance_] and the storage it may point to. *)
Record RenderStatics : Type := MkRenderStatics {
  render_instance_ : option ptr;
  render_live : gmap ptr Manager;
  render_next : ptr
}.

(** What the constructor calls: [OgreContext::getInstance()->getOgreRoot()]
    and [Manager::registerComponent(name, constructor)]. *)
Inductive RenderCall : Type :=
| OgreContext_getOgreRoot
| Manager_registerComponent (name : string).

Section RenderSingleton.
Context {Around : Type}.
Variable answers : RenderCall -> Around -> reply unit * Around.

Local Abbreviation R := (@T RenderStatics Around RenderCall unit).

(** The body of [RenderManager::RenderManager()]. *)
Definition RenderManager_ctor_body : R unit :=
  ask answers OgreContext_getOgreRoot ;;~
  ask answers (Manager_registerComponent "MeshComponent") ;;~
  ask answers (Manager_registerComponent "Camera") ;;~
  ask answers (Manager_registerComponent "LightComponent") ;;~
  ask answers (Manager_registerComponent "PlaneComponent") ;;~
  t_ret tt.

(** [new RenderManager()]: storage with the base sub-object built by
    [Manager(ManID::Render)], then the constructor body; when the body
    throws, the storage is released and the exception goes on. *)
Definition new_RenderManager : R ptr :=
  f <~ get_fields ;;
  let a := render_next f in
  set_fields (MkRenderStatics (render_instance_ f)
                (<[a:=MkManager [] Render]> (render_live f)) (Pos.succ a)) ;;~
  (fun r =>
     match RenderManager_ctor_body r with
     | (Raised e, r') =>
         (Raised e,
          MkRun (MkRenderStatics (render_instance_ (fields r'))
                   (delete a (render_live (fields r'))) (render_next (fields r')))
                (around r') (made r'))
     | (Normal _, r') => (Normal a, r')
     | (Undefined, r') => (Undefined, r')
     end).

(** [RenderManager* RenderManager::getInstance()] *)
Definition RenderManager_getInstance : R (option ptr) :=
  f <~ get_fields ;;
  match render_instance_ f with
  | None =>
      a <~ new_RenderManager ;;
      f' <~ get_fields ;;
      set_fields (MkRenderStatics (Some a) (render_live f') (render_next f')) ;;~
      t_ret (Some a)
  | Some a => t_ret (Some a)
  end.

(** [n] calls of [getInstance], with what each returned. *)
Fixpoint render_gets (n : nat) : R (list (option ptr)) :=
  match n with
  | O => t_ret []
  | S n' =>
      q <~ RenderManager_getInstance ;;
      more <~ render_gets n' ;;
      t_ret (q :: more)
  end.

End RenderSingleton.

(** The calls of the constructor of the RenderManager, in order. *)
Definition render_ctor_calls : list RenderCall :=
  [ OgreContext_getOgreRoot;
    Manager_registerComponent "MeshComponent";
    Manager_registerComponent "Camera";
    Manager_registerComponent "LightComponent";
    Manager_registerComponent "PlaneComponent" ].

(** ** Ogre: [GLSLSeparableProgram] *)

(** The stage bits of OpenGL and the table [ogre2gltype] of
    [compileAndLink], indexed by the number of a [GpuProgramType]. *)
Inductive StageBit : Type :=
| GL_VERTEX_SHADER_BIT
| GL_FRAGMENT_SHADER_BIT
| GL_GEOMETRY_SHADER_BIT
| GL_TESS_EVALUATION_SHADER_BIT
| GL_TESS_CONTROL_SHADER_BIT
| GL_COMPUTE_SHADER_BIT.

Definition ogre2gltype : list StageBit :=
  [ GL_VERTEX_SHADER_BIT;
    GL_FRAGMENT_SHADER_BIT;
    GL_GEOMETRY_SHADER_BIT;
    GL_TESS_EVALUATION_SHADER_BIT;
    GL_TESS_CONTROL_SHADER_BIT;
    GL_COMPUTE_SHADER_BIT ].

(** A [GLSLShader*] that is not null: where the shader is, and what its
    [getType()] returns, as the number of the [GpuProgramType]. *)
Record Shader : Type := MkShader {
  shader_at : ptr;
  shader_type : nat
}.

(** The data members of the program that the translated functions read or
    write; [mShaders] has one slot per program type, null when unused. *)
Record GLSLProgram : Type := MkProgram {
  mLinked : bool;
  mGLProgramPipelineHandle : Z;
  mShaders : list (option Shader)
}.

(** Calls into OpenGL and into the rest of the render system.  The macro
    [OGRE_CHECK_GL_ERROR(call)] is taken to make the call. *)
Inductive GLCall : Type :=
| glUseProgram (program : Z)
| glGenProgramPipelines
| glDeleteProgramPipelines (pipeline : Z)
| Shader_linkSeparable (s : ptr)
| Shader_getGLProgramHandle (s : ptr)
| glUseProgramStages (pipeline : Z) (stages : StageBit) (program : Z)
| glValidateProgramPipeline (pipeline : Z)
| getCombinedName
| logObjectInfo (message : string) (handle : Z)
| extractLayoutQualifiers
| bindGLProgramPipeline (pipeline : Z).

Inductive GLAnswer : Type :=
| GLNothing
| GLBool (b : bool)
| GLHandle (h : Z)
| GLString (s : string).

(** The shaders of the slots that are not null, in slot order. *)
Definition present (l : list (option Shader)) : list Shader := omap id l.

Section SeparableProgram.
Context {Around : Type}.
Variable answers : GLCall -> Around -> reply GLAnswer * Around.

Local Abbreviation P := (@T GLSLProgram Around GLCall GLAnswer).
Local Abbreviation gl := (ask answers).

Definition set_mLinked (b : bool) : P unit :=
  f <~ get_fields ;;
  set_fields (MkProgram b (mGLProgramPipelineHandle f) (mShaders f)).

(** [glGenProgramPipelines(1, &mGLProgramPipelineHandle)]: the member holds
    the name the call stored, and its old value if it stored none. *)
Definition gen_pipeline : P unit :=
  a <~ gl glGenProgramPipelines ;;
  f <~ get_fields ;;
  match a with
  | GLHandle h => set_fields (MkProgram (mLinked f) h (mShaders f))
  | _ => t_ret tt
  end.

(** The first loop of [compileAndLink]; its value tells whether the
    function goes on ([false]: it has executed [return]).  An answer of
    [linkSeparable] that is no boolean is no behaviour of the shader. *)
Fixpoint link_each (l : list (option Shader)) : P bool :=
  match l with
  | [] => t_ret true
  | None :: rest => link_each rest
  | Some s :: rest =>
      a <~ gl (Shader_linkSeparable (shader_at s)) ;;
      match a with
      | GLBool true => link_each rest
      | GLBool false => set_mLinked false ;;~ t_ret false
      | _ => t_undefined
      end
  end.

(** The second loop of [compileAndLink].  A type outside the table is a
    read past the end of [ogre2gltype]. *)
Fixpoint attach_each (l : list (option Shader)) : P unit :=
  match l with
  | [] => t_ret tt
  | None :: rest => attach_each rest
  | Some s :: rest =>
      match ogre2gltype !! shader_type s with
      | None => t_undefined
      | Some bit =>
          a <~ gl (Shader_getGLProgramHandle (shader_at s)) ;;
          match a with
          | GLHandle program =>
              f <~ get_fields ;;
              gl (glUseProgramStages (mGLProgramPipelineHandle f) bit program) ;;~
              attach_each rest
          | _ => t_undefined
          end
      end
  end.

(** [void GLSLSeparableProgram::compileAndLink()] *)
Definition GLSLSeparableProgram_compileAndLink : P unit :=
  gl (glUseProgram 0) ;;~
  gen_pipeline ;;~
  set_mLinked true ;;~
  f <~ get_fields ;;
  go_on <~ link_each (mShaders f) ;;
  if go_on then
    attach_each (mShaders f) ;;~
    f' <~ get_fields ;;
    gl (glValidateProgramPipeline (mGLProgramPipelineHandle f')) ;;~
    n <~ gl getCombinedName ;;
    match n with
    | GLString name =>
        gl (logObjectInfo (name +:+ "GLSL program pipeline validation result: ")
              (mGLProgramPipelineHandle f')) ;;~
        t_ret tt
    | _ => t_undefined
    end
  else t_ret tt.

(** [void GLSLSeparableProgram::activate(void)] *)
Definition GLSLSeparableProgram_activate : P unit :=
  f <~ get_fields ;;
  (if negb (mLinked f)
   then GLSLSeparableProgram_compileAndLink ;;~
        gl extractLayoutQualifiers ;;~
        t_ret tt
   else t_ret tt) ;;~
  f' <~ get_fields ;;
  if mLinked f'
  then gl (bindGLProgramPipeline (mGLProgramPipelineHandle f')) ;;~ t_ret tt
  else t_ret tt.

(** [GLSLSeparableProgram::~GLSLSeparableProgram()] *)
Definition GLSLSeparableProgram_dtor : P unit :=
  f <~ get_fields ;;
  gl (glDeleteProgramPipelines (mGLProgramPipelineHandle f)) ;;~
  t_ret tt.

End SeparableProgram.

(** The calls that link the given shaders, and the shape of the calls that
    attach them to the pipeline [h]: each shader is asked for its program,
    which is then bound to the stage of the shader's type. *)
Definition link_calls (l : list Shader) : list GLCall :=
  map (fun s => Shader_linkSeparable (shader_at s)) l.

Inductive attached (h : Z) : list Shader -> list (GLCall * reply GLAnswer) -> Prop :=
| attached_nil : attached h [] []
| attached_cons (s : Shader) (rest : list Shader) (bit : StageBit)
      (program : Z) (x : GLAnswer) (more : list (GLCall * reply GLAnswer)) :
    ogre2gltype !! shader_type s = Some bit ->
    attached h rest more ->
    attached h (s :: rest)
      ((Shader_getGLProgramHandle (shader_at s), Answer (GLHandle program))
       :: (glUseProgramStages h bit program, Answer x)
       :: more).

(** ** Vocabulary and example worlds of the further properties *)

(** A thrown value that a [catch (std::exception&)] clause catches. *)
Definition is_std (e : exn) : bool :=
  match e with
  | StdException _ => true
  | Foreign _ => false
  end.

(** The name a creator gives to [createWindow]: the slider is created
    without one. *)
Definition creation_name (k : WidgetKind) (name : string) : option string :=
  match k with
  | Slider => None
  | _ => Some name
  end.

(** The calls of a creator in program order, when none of them throws and
    [createWindow] returns the window [w]. *)
Definition creator_calls {F} (k : WidgetKind) (scheme : string) (root : option ptr)
    (text : string) (position size : F * F) (name : string) (w : option ptr) :
    list (@GuiCall F) :=
  (WindowManager_createWindow (scheme +:+ kind_suffix k) (creation_name k name)
   :: Window_setPosition w (fst position) (snd position)
   :: Window_setSize w (fst size) (snd size)
   :: match k with
      | Button | Label => [Window_setText w text]
      | Slider => [Window_setRotation w; Window_setName w name]
      | StaticImage =>
          [Window_setProperty w "FrameEnabled" "false";
           Window_setProperty w "BackgroundEnabled" "false";
           Window_setProperty w "Image" text]
      end
   ++ [Window_addChild root w])%list.


(** The SDL value of a mouse button, the event types of the mouse, and the
    window events that mean a new size. *)
Definition button_value (sdl : SDL_names) (b : MouseButton) : Z :=
  match b with
  | LeftButton => SDL_BUTTON_LEFT sdl
  | RightButton => SDL_BUTTON_RIGHT sdl
  end.

Definition mouse_type (sdl : SDL_names) (t : Z) : Prop :=
  t = SDL_MOUSEBUTTONDOWN sdl \/ t = SDL_MOUSEBUTTONUP sdl \/ t = SDL_MOUSEMOTION sdl.

Definition resize_code (sdl : SDL_names) (c : Z) : Prop :=
  c = SDL_WINDOWEVENT_MAXIMIZED sdl \/
  c = SDL_WINDOWEVENT_RESIZED sdl \/
  c = SDL_WINDOWEVENT_SIZE_CHANGED sdl.

(** The event that justifies a call of [captureInput]. *)
Definition justified {F} (to_float : Z -> F) (sdl : SDL_names) (ev : SDL_Event)
    (c : @GuiCall F) : Prop :=
  match c with
  | GUIContext_injectMouseButtonDown b =>
      event_type ev = SDL_MOUSEBUTTONDOWN sdl /\ button_button ev = button_value sdl b
  | GUIContext_injectMouseButtonUp b =>
      event_type ev = SDL_MOUSEBUTTONUP sdl /\ button_button ev = button_value sdl b
  | GUIContext_injectMousePosition x y =>
      event_type ev = SDL_MOUSEMOTION sdl /\
      x = to_float (motion_x ev) /\ y = to_float (motion_y ev)
  | RenderWindow_getMetrics | System_notifyDisplaySizeChanged _ _ =>
      ~ mouse_type sdl (event_type ev) /\ resize_code sdl (window_event ev)
  | _ => False
  end.

(** The names of SDL 2 that [captureInput] uses, with their values:
    [SDL_MOUSEBUTTONDOWN] 0x401, [SDL_MOUSEBUTTONUP] 0x402,
    [SDL_MOUSEMOTION] 0x400, [SDL_BUTTON_LEFT] 1, [SDL_BUTTON_RIGHT] 3,
    [SDL_WINDOWEVENT_MAXIMIZED] 8, [SDL_WINDOWEVENT_RESIZED] 5,
    [SDL_WINDOWEVENT_SIZE_CHANGED] 6. *)
Definition SDL2 : SDL_names :=
  MkSDL 1025 1026 1024 1 3 8 5 6.

(** The [float] that an integer converts to where [float] is the IEEE 754
    binary32 format and conversions round to nearest, ties to even: the
    value keeps its 24 leading bits.  The result is given by its value, an
    integer again. *)
Definition binary32_of_Z (n : Z) : Z :=
  let m := Z.abs n in
  let k := Z.log2 m in
  if (k <? 24)%Z then n
  else
    let s := (k - 23)%Z in
    let q := Z.shiftr m s in
    let low := Z.land m (Z.ones s) in
    let half := Z.shiftl 1 (s - 1) in
    let q' := if ((half <? low)%Z || ((low =? half)%Z && Z.odd q))%bool
              then (q + 1)%Z else q in
    (Z.sgn n * Z.shiftl q' s)%Z.

(** The SDL names all differ where [captureInput] tells them apart. *)
Definition distinct_names (sdl : SDL_names) : Prop :=
  SDL_MOUSEBUTTONDOWN sdl <> SDL_MOUSEBUTTONUP sdl /\
  SDL_MOUSEBUTTONDOWN sdl <> SDL_MOUSEMOTION sdl /\
  SDL_MOUSEBUTTONUP sdl <> SDL_MOUSEMOTION sdl /\
  SDL_BUTTON_LEFT sdl <> SDL_BUTTON_RIGHT sdl.

(** Surroundings that answer every call with nothing, and a UIManager that
    has made no call yet. *)
Definition quiet_gui (c : @GuiCall Z) (w : unit) : reply GuiAnswer * unit :=
  (Answer NoValue, w).

Definition fresh_ui : @Run UIFields unit (@GuiCall Z) GuiAnswer :=
  MkRun (MkUIFields "TaharezLook" (Some 5%positive)) tt [].

(** A press of the left button at the SDL 2 values. *)
Definition left_press : SDL_Event := MkEvent 1025 1 0 0 0.

(** A window event ([SDL_WINDOWEVENT], 0x200) that reports a resize, and
    surroundings whose window stores a width one above 2^24 and the largest
    [unsigned int] as height. *)
Definition window_resized : SDL_Event := MkEvent 512 0 0 0 5.

Definition wide_window (c : @GuiCall Z) (w : unit) : reply GuiAnswer * unit :=
  match c with
  | RenderWindow_getMetrics => (Answer (Metrics 16777217 4294967295), w)
  | _ => (Answer NoValue, w)
  end.

(** A RenderManager not yet created, in surroundings that answer every
    call. *)
Definition quiet_render (c : RenderCall) (w : unit) : reply unit * unit :=
  (Answer tt, w).

Definition no_render_manager : @Run RenderStatics unit RenderCall unit :=
  MkRun (MkRenderStatics None ∅ 1%positive) tt [].

(** The handle a program holds after [glGenProgramPipelines] answered. *)
Definition handle_after (gen : GLAnswer) (old : Z) : Z :=
  match gen with
  | GLHandle h => h
  | _ => old
  end.

(** The entries of a successful link of the given shaders. *)
Definition linked_ok (l : list Shader) : list (GLCall * reply GLAnswer) :=
  map (fun s => (Shader_linkSeparable (shader_at s), Answer (GLBool true))) l.

(** Surroundings that answer from a script, and with nothing once the
    script is over; a program with a vertex and a fragment shader and an
    unused slot between them. *)
Definition gl_script (c : GLCall) (w : list (reply GLAnswer)) :
    reply GLAnswer * list (reply GLAnswer) :=
  match w with
  | [] => (Answer GLNothing, [])
  | o :: rest => (o, rest)
  end.

Definition two_shaders : GLSLProgram :=
  MkProgram false 0
    [Some (MkShader 1%positive 0); None; Some (MkShader 2%positive 1)].

Definition second_link_fails : @Run GLSLProgram (list (reply GLAnswer)) GLCall GLAnswer :=
  MkRun two_shaders
        [Answer GLNothing; Answer (GLHandle 7);
         Answer (GLBool true); Answer (GLBool false)] [].

Definition all_links_succeed : @Run GLSLProgram (list (reply GLAnswer)) GLCall GLAnswer :=
  MkRun two_shaders
        [Answer GLNothing; Answer (GLHandle 7);
         Answer (GLBool true); Answer (GLBool true);
         Answer (GLHandle 11); Answer GLNothing;
         Answer (GLHandle 12); Answer GLNothing;
         Answer GLNothing; Answer (GLString "p "); Answer GLNothing] [].

(** * Properties *)

Section SingletonFacts.
Context {Ext : Type}.
Implicit Types p : @Process Ext.

Lemma setupInstance_taken p a appName :
  engine_instance_ p = Some a ->
  PapagayoEngine_setupInstance appName p = (Normal false, p).
Proof.
  intros Hi. unfold PapagayoEngine_setupInstance, bind, get_engine_instance.
  now rewrite Hi.
Qed.

Lemma setupInstance_fresh p appName :
  engine_instance_ p = None ->
  PapagayoEngine_setupInstance appName p =
    (Normal true,
     MkProcess (world p) (<[next_ptr p:=PapagayoEngineObj appName]> (heap p))
               (Pos.succ (next_ptr p)) (Some (next_ptr p)) (ui_instance_ p) (log p)).
Proof.
  intros Hi. unfold PapagayoEngine_setupInstance, bind, get_engine_instance.
  now rewrite Hi.
Qed.

Lemma getInstance_taken p a :
  engine_instance_ p = Some a ->
  PapagayoEngine_getInstance p = (Normal (Some a), p).
Proof.
  intros Hi. unfold PapagayoEngine_getInstance, bind, get_engine_instance.
  rewrite Hi. cbn. now rewrite Hi.
Qed.

Lemma engine_calls_taken (cs : list EngineCall) p a :
  engine_instance_ p = Some a ->
  engine_calls cs p = (Normal (map (expected_answer a) cs), p).
Proof.
  intros Hi. induction cs as [|c cs IH]; [reflexivity|].
  cbn [engine_calls map]. unfold bind at 1.
  assert (engine_call c p = (Normal (expected_answer a c), p)) as ->.
  { destruct c; unfold engine_call, bind.
    - now rewrite (setupInstance_taken p a).
    - now rewrite (getInstance_taken p a). }
  unfold bind. now rewrite IH.
Qed.

Variable outside : Call -> @World Ext -> outcome * @World Ext.

Lemma UI_setUpInstance_taken p a :
  ui_instance_ p = Some a ->
  UIManager_setUpInstance outside p = (Normal true, p).
Proof.
  intros Hi. unfold UIManager_setUpInstance, bind, get_ui_instance.
  now rewrite Hi.
Qed.

Lemma ui_setups_taken n p a :
  ui_instance_ p = Some a ->
  ui_setups outside n p = (Normal (replicate n true), p).
Proof.
  intros Hi. induction n as [|n IH]; [reflexivity|].
  cbn [ui_setups replicate]. unfold bind at 1.
  rewrite (UI_setUpInstance_taken p a Hi). unfold bind. now rewrite IH.
Qed.

(** What [setUpInstance] does when no UIManager exists yet, by the outcome
    of the constructor body. *)
Lemma UI_setUpInstance_fresh p :
  ui_instance_ p = None ->
  UIManager_setUpInstance outside p =
    let '(o, w') := outside UIManager_ctor_body (world p) in
    let a := next_ptr p in
    let l' := (log p ++ [Called UIManager_ctor_body o])%list in
    match o with
    | Returns _ =>
        (Normal true,
         MkProcess w' (<[a:=UIManagerObj (MkManager [] UI)]> (heap p))
                   (Pos.succ a) (engine_instance_ p) (Some a) l')
    | Throws _ =>
        (Normal false,
         MkProcess w' (delete a (<[a:=UIManagerObj (MkManager [] UI)]> (heap p)))
                   (Pos.succ a) (engine_instance_ p) None l')
    end.
Proof.
  intros Hi.
  unfold UIManager_setUpInstance, bind at 1, get_ui_instance. rewrite Hi.
  unfold bind at 1, try_catch_all, bind at 1, new_UIManager, bind at 1, alloc, call.
  cbn [world heap next_ptr engine_instance_ ui_instance_ log].
  destruct (outside UIManager_ctor_body (world p)) as [[b|e] w']; cbn.
  - reflexivity.
  - unfold bind, free, throw; cbn. rewrite lookup_insert_eq. cbn.
    now rewrite Hi.
Qed.

(** [clean] never writes [instance_], however it ends. *)
Lemma clean_keeps_instance p :
  engine_instance_ (snd (PapagayoEngine_clean outside p)) = engine_instance_ p.
Proof.
  unfold PapagayoEngine_clean, bind, call, get_engine_instance.
  cbn [world heap next_ptr engine_instance_ ui_instance_ log].
  destruct (outside SceneManager_clean (world p)) as [[b1|e1] w1]; [|reflexivity].
  cbn [world heap next_ptr engine_instance_ ui_instance_ log].
  destruct (outside ResourceManager_clean w1) as [[b2|e2] w2]; [|reflexivity].
  cbn [world heap next_ptr engine_instance_ ui_instance_ log].
  destruct (engine_instance_ p) as [a|] eqn:Hi; [|now cbn].
  unfold delete_, free. cbn [world heap next_ptr engine_instance_ ui_instance_ log].
  now destruct (heap p !! a).
Qed.

End SingletonFacts.

(** ** Singletons: [setupInstance], [getInstance], [clean] *)

(** C2, as stated, fails for the UIManager: after a first successful
    [UIManager::setUpInstance], a second call returns [true], not [false]
    (the instance pointer stays what it was). *)
Lemma C2_counterexample_UIManager_returns_true :
  fst (UIManager_setUpInstance scripted (boot [] true)) = Normal true /\
  ui_instance_ ui_up = Some 1%positive /\
  UIManager_setUpInstance scripted ui_up = (Normal true, ui_up) /\
  fst (UIManager_setUpInstance scripted ui_up) <> Normal false.
Proof.
  repeat split; try reflexivity. discriminate.
Qed.

(** C2 (amended): after a first successful [setupInstance], every later
    [PapagayoEngine::setupInstance] call returns [false] and leaves the whole
    process state (instance pointer, the engine object, everything else)
    as it was; after a first successful [UIManager::setUpInstance], every
    later call leaves the whole process state as it was too, but returns
    [true]. *)
Theorem C2_setupInstance_after_first_success :
  forall (Ext : Type) (outside : Call -> @World Ext -> outcome * @World Ext)
         (p : @Process Ext) (appName : string),
    (forall p1 : @Process Ext,
       PapagayoEngine_setupInstance appName p = (Normal true, p1) ->
       engine_instance_ p1 = Some (next_ptr p) /\
       heap p1 !! next_ptr p = Some (PapagayoEngineObj appName) /\
       forall names : list string,
         engine_calls (map DoSetupInstance names) p1 =
           (Normal (map (fun _ => AnsBool false) names), p1)) /\
    (forall p2 : @Process Ext,
       UIManager_setUpInstance outside p = (Normal true, p2) ->
       exists a : ptr,
         ui_instance_ p2 = Some a /\
         forall n : nat, ui_setups outside n p2 = (Normal (replicate n true), p2)).
Proof.
  intros Ext outside p appName. split.
  - intros p1 He. destruct (engine_instance_ p) as [a|] eqn:Hi.
    + rewrite (setupInstance_taken p a appName Hi) in He. discriminate.
    + rewrite (setupInstance_fresh p appName Hi) in He.
      injection He as <-. cbn. split; [reflexivity|]. split.
      * apply lookup_insert_eq.
      * intros names.
        rewrite (engine_calls_taken (map DoSetupInstance names) _ (next_ptr p))
          by reflexivity.
        now rewrite map_map.
  - intros p2 Hu. destruct (ui_instance_ p) as [a|] eqn:Hi.
    + rewrite (UI_setUpInstance_taken outside p a Hi) in Hu.
      injection Hu as <-. exists a. split; [exact Hi|].
      intros n. now apply ui_setups_taken with (a := a).
    + rewrite (UI_setUpInstance_fresh outside p Hi) in Hu.
      destruct (outside UIManager_ctor_body (world p)) as [[b|e] w'];
        [|discriminate].
      injection Hu as <-. exists (next_ptr p). split; [reflexivity|].
      intros n. now apply ui_setups_taken with (a := next_ptr p).
Qed.

(** C2 (amended) in a booted process: both singletons get created, and
    then stay. *)
Lemma C2_setupInstance_after_first_success_witness :
  PapagayoEngine_setupInstance "game" (boot [] true) = (Normal true, engine_up) /\
  UIManager_setUpInstance scripted (boot [] true) = (Normal true, ui_up) /\
  (engine_instance_ engine_up = Some 1%positive /\
   heap engine_up !! 1%positive = Some (PapagayoEngineObj "game") /\
   forall names : list string,
     engine_calls (map DoSetupInstance names) engine_up =
       (Normal (map (fun _ => AnsBool false) names), engine_up)) /\
  (exists a, ui_instance_ ui_up = Some a /\
   forall n : nat, ui_setups scripted n ui_up = (Normal (replicate n true), ui_up)).
Proof.
  split; [reflexivity|]. split; [reflexivity|].
  destruct (C2_setupInstance_after_first_success Script scripted
              (boot [] true) "game") as [Hengine Hui].
  split; [apply Hengine|apply Hui]; reflexivity.
Defined.

(** C9: once an engine exists, [clean] frees the object but leaves
    [instance_] pointing at it; from then on every [setupInstance] returns
    [false] and every [getInstance] returns that same, destroyed, address,
    so no second engine is ever created.  ([clean] leaves [instance_] as it
    finds it in every state and however it ends.) *)
Theorem C9_instance_not_reset_by_clean :
  forall (Ext : Type) (outside : Call -> @World Ext -> outcome * @World Ext)
         (p p' : @Process Ext) (a : ptr),
    engine_instance_ p = Some a ->
    PapagayoEngine_clean outside p = (Normal tt, p') ->
    engine_instance_ p' = Some a /\
    heap p' !! a = None /\
    (forall cs : list EngineCall,
       engine_calls cs p' = (Normal (map (expected_answer a) cs), p')) /\
    (forall q : @Process Ext,
       engine_instance_ (snd (PapagayoEngine_clean outside q)) = engine_instance_ q).
Proof.
  intros Ext outside p p' a Hi Hc.
  assert (engine_instance_ p' = Some a /\ heap p' !! a = None) as [Hi' Hh].
  { revert Hc. unfold PapagayoEngine_clean, bind, call, get_engine_instance.
    cbn [world heap next_ptr engine_instance_ ui_instance_ log].
    destruct (outside SceneManager_clean (world p)) as [[b1|e1] w1];
      [|discriminate].
    cbn [world heap next_ptr engine_instance_ ui_instance_ log].
    destruct (outside ResourceManager_clean w1) as [[b2|e2] w2];
      [|discriminate].
    cbn [world heap next_ptr engine_instance_ ui_instance_ log].
    rewrite Hi. unfold delete_, free.
    cbn [world heap next_ptr engine_instance_ ui_instance_ log].
    destruct (heap p !! a); [|discriminate].
    intros [= <-]. cbn. split; [reflexivity|apply lookup_delete_eq]. }
  repeat split; try assumption.
  - intros cs. now apply engine_calls_taken.
  - intros q. apply clean_keeps_instance.
Qed.

(** C9 on a process where the engine has been set up once. *)
Lemma C9_instance_not_reset_by_clean_witness :
  engine_instance_ engine_up = Some 1%positive /\
  PapagayoEngine_clean scripted engine_up =
    (Normal tt, snd (PapagayoEngine_clean scripted engine_up)) /\
  engine_instance_ (snd (PapagayoEngine_clean scripted engine_up)) = Some 1%positive /\
  heap (snd (PapagayoEngine_clean scripted engine_up)) !! 1%positive = None /\
  (forall cs : list EngineCall,
     engine_calls cs (snd (PapagayoEngine_clean scripted engine_up)) =
       (Normal (map (expected_answer 1%positive) cs),
        snd (PapagayoEngine_clean scripted engine_up))) /\
  (forall q : @Process Script,
     engine_instance_ (snd (PapagayoEngine_clean scripted q)) = engine_instance_ q).
Proof.
  split; [reflexivity|]. split; [reflexivity|].
  apply (C9_instance_not_reset_by_clean Script scripted engine_up
           (snd (PapagayoEngine_clean scripted engine_up)) 1%positive);
    reflexivity.
Defined.

(** C10: when no UIManager exists, [setUpInstance] never lets an exception
    out.  If the constructor throws, whatever the thrown value, it returns
    [false], [instance_] is still null and the storage of the unfinished
    object is not live; if the constructor completes, it returns [true] and
    [instance_] is the new object.  No other object is touched. *)
Theorem C10_setUpInstance_atomic_on_failure :
  forall (Ext : Type) (outside : Call -> @World Ext -> outcome * @World Ext)
         (p : @Process Ext),
    ui_instance_ p = None ->
    exists o : outcome,
      log (snd (UIManager_setUpInstance outside p)) =
        (log p ++ [Called UIManager_ctor_body o])%list /\
      (forall a' : ptr, a' <> next_ptr p ->
         heap (snd (UIManager_setUpInstance outside p)) !! a' = heap p !! a') /\
      match o with
      | Throws _ =>
          fst (UIManager_setUpInstance outside p) = Normal false /\
          ui_instance_ (snd (UIManager_setUpInstance outside p)) = None /\
          heap (snd (UIManager_setUpInstance outside p)) !! next_ptr p = None
      | Returns _ =>
          fst (UIManager_setUpInstance outside p) = Normal true /\
          ui_instance_ (snd (UIManager_setUpInstance outside p)) = Some (next_ptr p) /\
          heap (snd (UIManager_setUpInstance outside p)) !! next_ptr p =
            Some (UIManagerObj (MkManager [] UI))
      end.
Proof.
  intros Ext outside p Hi.
  rewrite (UI_setUpInstance_fresh outside p Hi).
  destruct (outside UIManager_ctor_body (world p)) as [[b|e] w'].
  - exists (Returns b). cbn. repeat split.
    + intros a' Hne. now rewrite lookup_insert_ne.
    + apply lookup_insert_eq.
  - exists (Throws e). cbn. repeat split.
    + intros a' Hne. rewrite lookup_delete_ne by congruence.
      now rewrite lookup_insert_ne.
    + apply lookup_delete_eq.
Qed.

(** C10 in a world where the constructor throws a string literal. *)
Lemma C10_setUpInstance_atomic_on_failure_witness :
  ui_instance_ ctor_throws = None /\
  exists o : outcome,
    log (snd (UIManager_setUpInstance scripted ctor_throws)) =
      (log ctor_throws ++ [Called UIManager_ctor_body o])%list /\
    (forall a' : ptr, a' <> next_ptr ctor_throws ->
       heap (snd (UIManager_setUpInstance scripted ctor_throws)) !! a' =
         heap ctor_throws !! a') /\
    match o with
    | Throws _ =>
        fst (UIManager_setUpInstance scripted ctor_throws) = Normal false /\
        ui_instance_ (snd (UIManager_setUpInstance scripted ctor_throws)) = None /\
        heap (snd (UIManager_setUpInstance scripted ctor_throws)) !! next_ptr ctor_throws = None
    | Returns _ =>
        fst (UIManager_setUpInstance scripted ctor_throws) = Normal true /\
        ui_instance_ (snd (UIManager_setUpInstance scripted ctor_throws)) =
          Some (next_ptr ctor_throws) /\
        heap (snd (UIManager_setUpInstance scripted ctor_throws)) !! next_ptr ctor_throws =
          Some (UIManagerObj (MkManager [] UI))
    end.
Proof.
  split; [reflexivity|].
  apply (C10_setUpInstance_atomic_on_failure Script scripted ctor_throws).
  reflexivity.
Defined.

(** ** The engine: [init], [update], [run] *)

Tactic Notation "split_last_at" uconstr(done) :=
  refine (ex_intro _ done _); do 2 eexists; split; [reflexivity|].

Ltac split_last :=
  first
    [ split_last_at (@nil Event)
    | split_last_at (cons (A:=Event) _ nil)
    | split_last_at (cons (A:=Event) _ (cons _ nil))
    | split_last_at (cons (A:=Event) _ (cons _ (cons _ nil)))
    | split_last_at (cons (A:=Event) _ (cons _ (cons _ (cons _ nil)))) ].

Ltac all_returned :=
  repeat first [ apply List.Forall_nil | apply List.Forall_cons; [exact I|] ].

Section EngineFacts.
Context {Ext : Type}.
Variable outside : Call -> @World Ext -> outcome * @World Ext.
Implicit Types p : @Process Ext.

Ltac ask c w :=
  destruct (outside c w) as [[?|[?|?]] ?];
  cbn [world heap next_ptr engine_instance_ ui_instance_ log fst snd].

(** [init] only talks to the outside: it appends to the log, moves the
    world, and leaves heap and instance pointers alone. *)
Lemma init_events p :
  exists evs : list Event,
    log (snd (PapagayoEngine_init outside p)) = (log p ++ evs)%list /\
    init_shape (fst (PapagayoEngine_init outside p)) evs.
Proof.
  unfold PapagayoEngine_init, try_catch_std, bind, call, throw, ret, init_shape.
  cbn [world heap next_ptr engine_instance_ ui_instance_ log].
  ask (OgreContext_setupInstance "PAPAGAYO ENGINE") (world p);
    [|eexists; split; [reflexivity|]; split; [reflexivity|split_last];
      split; [all_returned|reflexivity]..].
  match goal with |- context [outside ?c ?w] => ask c w end;
    [|rewrite <- !app_assoc; eexists; split; [reflexivity|];
      split; [reflexivity|split_last]; split; [all_returned|reflexivity]..].
  match goal with |- context [outside ?c ?w] => ask c w end;
    [|rewrite <- !app_assoc; eexists; split; [reflexivity|];
      split; [reflexivity|split_last]; split; [all_returned|reflexivity]..].
  match goal with |- context [outside ?c ?w] => ask c w end;
    [|rewrite <- !app_assoc; eexists; split; [reflexivity|];
      split; [reflexivity|split_last]; split; [all_returned|reflexivity]..].
  match goal with |- context [outside ?c ?w] => ask c w end;
    [|rewrite <- !app_assoc; eexists; split; [reflexivity|];
      split; [reflexivity|split_last]; split; [all_returned|reflexivity]..].
  rewrite <- !app_assoc. eexists. split; [reflexivity|].
  split; [reflexivity|]. split; [reflexivity|all_returned].
Qed.

Lemma init_first_call p :
  exists (o : outcome) (rest : list Event),
    log (snd (PapagayoEngine_init outside p)) =
      (log p ++ Called (OgreContext_setupInstance "PAPAGAYO ENGINE") o :: rest)%list.
Proof.
  destruct (init_events p) as (evs & Hlog & Hcalls & Hres).
  rewrite Hlog.
  assert (exists c o rest, evs = Called c o :: rest) as (c & o & rest & ->).
  { destruct (fst (PapagayoEngine_init outside p)) as [[]|e'|].
    - destruct Hres as [Hlen HF]. destruct HF as [|[c o|b] rest Hx HF].
      + discriminate.
      + now exists c, o, rest.
      + destruct Hx.
    - destruct Hres as (done & c & e & -> & HF & _).
      destruct HF as [|[c' o|b] rest Hx HF].
      + now exists c, (Throws e), [].
      + now eexists c', o, _.
      + destruct Hx.
    - destruct Hres. }
  cbn in Hcalls. injection Hcalls as -> _. now exists o, rest.
Qed.

Lemma init_normal_iff_all_returned p evs :
  log (snd (PapagayoEngine_init outside p)) = (log p ++ evs)%list ->
  (fst (PapagayoEngine_init outside p) = Normal tt <-> Forall returned evs).
Proof.
  intros Hlog.
  destruct (init_events p) as (evs' & Hlog' & _ & Hres).
  rewrite Hlog in Hlog'. apply app_inv_head in Hlog'. subst evs'.
  destruct (fst (PapagayoEngine_init outside p)) as [[]|e'|].
  - split; [intros _; apply Hres|reflexivity].
  - destruct Hres as (done & c & e & -> & _). split; [discriminate|].
    intros HF. apply Forall_app in HF as [_ HF].
    apply Forall_cons in HF as [[] _].
  - destruct Hres.
Qed.

(** [update] is one call of [renderOneFrame]. *)
Lemma update_eq p :
  PapagayoEngine_update outside p =
    (match fst (outside Root_renderOneFrame (world p)) with
     | Returns _ => Normal tt
     | Throws e => Raised (update_rethrown e)
     end,
     MkProcess (snd (outside Root_renderOneFrame (world p)))
               (heap p) (next_ptr p) (engine_instance_ p) (ui_instance_ p)
               (log p ++ [Called Root_renderOneFrame
                            (fst (outside Root_renderOneFrame (world p)))])).
Proof.
  unfold PapagayoEngine_update, try_catch_std, bind, call, throw, ret.
  now destruct (outside Root_renderOneFrame (world p)) as [[?|[?|?]] ?].
Qed.

Lemma main_loop_stop fuel p :
  running_ (world p) = false ->
  main_loop outside (S fuel) p =
    Some (Normal tt,
          MkProcess (world p) (heap p) (next_ptr p) (engine_instance_ p)
                    (ui_instance_ p) (log p ++ [LoopTest false])).
Proof.
  intros Hr. cbn [main_loop]. unfold bind, get_running, tell, ret.
  now rewrite Hr.
Qed.

Lemma main_loop_frame fuel p :
  running_ (world p) = true ->
  main_loop outside (S fuel) p =
    let o := fst (outside Root_renderOneFrame (world p)) in
    let p' := MkProcess (snd (outside Root_renderOneFrame (world p)))
                        (heap p) (next_ptr p) (engine_instance_ p) (ui_instance_ p)
                        (log p ++ [LoopTest true; Called Root_renderOneFrame o]) in
    match o with
    | Returns _ => main_loop outside fuel p'
    | Throws e => Some (Raised (update_rethrown e), p')
    end.
Proof.
  intros Hr. cbn [main_loop]. unfold bind, get_running, tell, ret.
  rewrite Hr, update_eq.
  cbn [world heap next_ptr engine_instance_ ui_instance_ log].
  rewrite <- app_assoc. cbn [app].
  now destruct (fst (outside Root_renderOneFrame (world p))).
Qed.

End EngineFacts.

Section LoopFacts.
Context {Ext : Type}.
Variable outside : Call -> @World Ext -> outcome * @World Ext.
Implicit Types p : @Process Ext.

Lemma stops_after_S k w :
  stops_after outside (S k) w ->
  running_ w = true /\
  (exists b, fst (outside Root_renderOneFrame w) = Returns b) /\
  stops_after outside k (frame_world outside w).
Proof.
  intros [Hframes Hstop].
  destruct (Hframes 0 ltac:(lia)) as [H0 H0'].
  split; [exact H0|]. split; [exact H0'|]. split.
  - intros i Hi. apply (Hframes (S i)). lia.
  - exact Hstop.
Qed.

Lemma main_loop_runs_frames k :
  forall (extra : nat) p,
    stops_after outside k (world p) ->
    main_loop outside (S k + extra) p =
      Some (Normal tt,
            MkProcess (world_after outside k (world p)) (heap p) (next_ptr p)
                      (engine_instance_ p) (ui_instance_ p)
                      (log p ++ frames_log outside k (world p) ++ [LoopTest false])).
Proof.
  induction k as [|k IH]; intros extra p Hs.
  - destruct Hs as [_ Hstop]. cbn in Hstop.
    now rewrite (main_loop_stop outside _ p Hstop).
  - apply stops_after_S in Hs as (Hrun & [b Hb] & Hs).
    change (S (S k) + extra) with (S (S k + extra)).
    rewrite (main_loop_frame outside _ p Hrun). cbv zeta. rewrite Hb.
    rewrite IH by exact Hs.
    cbn [world heap next_ptr engine_instance_ ui_instance_ log
         world_after frames_log].
    fold (frame_world outside (world p)). rewrite Hb.
    now rewrite <- app_assoc.
Qed.

Lemma frames_log_shape k :
  forall w : @World Ext,
    stops_after outside k w ->
    exists bs : list bool,
      length bs = k /\
      frames_log outside k w =
        flat_map (fun b => [LoopTest true; Called Root_renderOneFrame (Returns b)]) bs.
Proof.
  induction k as [|k IH]; intros w Hs.
  - now exists [].
  - apply stops_after_S in Hs as (_ & [b Hb] & Hs).
    destruct (IH _ Hs) as (bs & Hlen & Hbs).
    exists (b :: bs). split; [cbn; now rewrite Hlen|].
    cbn [frames_log flat_map app]. now rewrite Hb, Hbs.
Qed.

(** Every run of the loop that ends has logged whole frames, each behind a
    test that saw the flag up, and then either the test that saw the flag
    down or the frame that threw. *)
Lemma main_loop_log fuel :
  forall p (r : res unit) p',
    main_loop outside fuel p = Some (r, p') ->
    exists (bs : list bool) (tail : list Event),
      log p' =
        (log p
         ++ flat_map (fun b => [LoopTest true;
                                Called Root_renderOneFrame (Returns b)]) bs
         ++ tail)%list /\
      ((r = Normal tt /\ tail = [LoopTest false]) \/
       (exists e : exn,
          r = Raised (update_rethrown e) /\
          tail = [LoopTest true; Called Root_renderOneFrame (Throws e)])).
Proof.
  induction fuel as [|fuel IH]; intros p r p' Hrun; [discriminate|].
  destruct (running_ (world p)) eqn:Hflag.
  - rewrite (main_loop_frame outside fuel p Hflag) in Hrun. cbv zeta in Hrun.
    destruct (fst (outside Root_renderOneFrame (world p))) as [b|e].
    + apply IH in Hrun as (bs & tail & Hlog & Hend).
      exists (b :: bs), tail. split; [|exact Hend].
      rewrite Hlog. cbn [log flat_map]. now rewrite <- !app_assoc.
    + injection Hrun as <- <-. exists [], [LoopTest true; Called Root_renderOneFrame (Throws e)].
      split; [reflexivity|]. right. now exists e.
  - rewrite (main_loop_stop outside fuel p Hflag) in Hrun.
    injection Hrun as <- <-. exists [], [LoopTest false].
    split; [reflexivity|]. now left.
Qed.

End LoopFacts.

(** C1, as stated, fails: a step of [init] can fail without [init] letting
    out an error that names the subsystem.  When
    [OgreContext::setupInstance] throws a value that is not a
    [std::exception], and when [setupRTShaderGenerator] throws a
    [std::exception], [init] stops there but what it lets out is the value
    as thrown, not a [runtime_error] with the subsystem's name. *)
Lemma C1_counterexample_error_not_identified :
  PapagayoEngine_init scripted ogre_throws_literal =
    (Raised (Foreign "no display"),
     MkProcess (MkWorld [] true) ∅ 1%positive None None
       [Called (OgreContext_setupInstance "PAPAGAYO ENGINE")
               (Throws (Foreign "no display"))]) /\
  (forall w : string,
     fst (PapagayoEngine_init scripted ogre_throws_literal) <>
       Raised (runtime_error ("OgreContext init fail " +:+ nl) w)) /\
  fst (PapagayoEngine_init scripted shader_generator_throws) =
    Raised (StdException "RTSS").
Proof.
  split; [reflexivity|]. split; [|reflexivity].
  intros w. cbn. discriminate.
Qed.

(** C1 (amended): [init] calls [OgreContext::setupInstance] first, then
    [ResourceManager::setupInstance], [SceneManager::setupInstance],
    [setupRTShaderGenerator] and the [MeshComponent] constructor, in that
    order and nothing else (no domain Manager is set up).  It stops at the
    first call that throws, so no later call is made; what it lets out is a
    [runtime_error] starting with the subsystem's name when one of the three
    [setupInstance] calls threw a [std::exception], and the thrown value
    itself otherwise.  It returns normally exactly when all five calls
    return, whatever booleans [setupInstance] answered. *)
Theorem C1_init_stops_at_first_throw :
  forall (Ext : Type) (outside : Call -> @World Ext -> outcome * @World Ext)
         (p : @Process Ext),
    exists evs : list Event,
      log (snd (PapagayoEngine_init outside p)) = (log p ++ evs)%list /\
      calls_of evs = take (length evs) init_calls /\
      match fst (PapagayoEngine_init outside p) with
      | Normal _ => length evs = length init_calls /\ Forall returned evs
      | Raised e' =>
          exists (done : list Event) (c : Call) (e : exn),
            evs = (done ++ [Called c (Throws e)])%list /\
            Forall returned done /\
            e' = init_rethrown c e
      | Undefined => False
      end.
Proof.
  intros Ext outside p. exact (init_events outside p).
Qed.

(** C8, as stated, fails: a second [init], run after a first one that
    completed, reports no failure (it returns normally) and is no no-op (it
    makes the five calls again and leaves another process state). *)
Lemma C8_counterexample_second_init_runs_again :
  fst (PapagayoEngine_init scripted two_inits) = Normal tt /\
  fst (PapagayoEngine_init scripted after_first_init) = Normal tt /\
  snd (PapagayoEngine_init scripted after_first_init) <> after_first_init /\
  calls_of (log (snd (PapagayoEngine_init scripted after_first_init))) =
    (init_calls ++ init_calls)%list.
Proof.
  split; [reflexivity|]. split; [reflexivity|]. split; [|reflexivity].
  intros H. apply (f_equal (fun q => length (log q))) in H.
  vm_compute in H. discriminate.
Qed.

(** C8 (amended): [init] has no guard on the lifecycle state and returns no
    status.  Run again after an [init] that completed, it calls
    [OgreContext::setupInstance] once more and goes through the same calls
    in the same order; it returns normally exactly when all of them return,
    whatever the [setupInstance] calls answer, and then it has made all five
    calls a second time. *)
Theorem C8_init_has_no_lifecycle_guard :
  forall (Ext : Type) (outside : Call -> @World Ext -> outcome * @World Ext)
         (p p1 : @Process Ext),
    PapagayoEngine_init outside p = (Normal tt, p1) ->
    exists (o : outcome) (rest : list Event),
      log (snd (PapagayoEngine_init outside p1)) =
        (log p1 ++ Called (OgreContext_setupInstance "PAPAGAYO ENGINE") o :: rest)%list /\
      calls_of (Called (OgreContext_setupInstance "PAPAGAYO ENGINE") o :: rest) =
        take (S (length rest)) init_calls /\
      (fst (PapagayoEngine_init outside p1) = Normal tt <->
       Forall returned (Called (OgreContext_setupInstance "PAPAGAYO ENGINE") o :: rest)) /\
      (fst (PapagayoEngine_init outside p1) = Normal tt ->
       calls_of (Called (OgreContext_setupInstance "PAPAGAYO ENGINE") o :: rest) =
         init_calls).
Proof.
  intros Ext outside p p1 _.
  destruct (init_first_call outside p1) as (o & rest & Hlog).
  exists o, rest. split; [exact Hlog|].
  destruct (init_events outside p1) as (evs & Hlog' & Hcalls & Hres).
  rewrite Hlog in Hlog'. apply app_inv_head in Hlog'. subst evs.
  split; [exact Hcalls|]. split.
  - now apply init_normal_iff_all_returned.
  - intros Hn. rewrite Hn in Hres. destruct Hres as [Hlen _].
    rewrite Hcalls, Hlen. reflexivity.
Qed.

(** C8 (amended) on two runs of [init] in a row. *)
Lemma C8_init_has_no_lifecycle_guard_witness :
  PapagayoEngine_init scripted two_inits = (Normal tt, after_first_init) /\
  exists (o : outcome) (rest : list Event),
    log (snd (PapagayoEngine_init scripted after_first_init)) =
      (log after_first_init ++
       Called (OgreContext_setupInstance "PAPAGAYO ENGINE") o :: rest)%list /\
    calls_of (Called (OgreContext_setupInstance "PAPAGAYO ENGINE") o :: rest) =
      take (S (length rest)) init_calls /\
    (fst (PapagayoEngine_init scripted after_first_init) = Normal tt <->
     Forall returned (Called (OgreContext_setupInstance "PAPAGAYO ENGINE") o :: rest)) /\
    (fst (PapagayoEngine_init scripted after_first_init) = Normal tt ->
     calls_of (Called (OgreContext_setupInstance "PAPAGAYO ENGINE") o :: rest) =
       init_calls).
Proof.
  split; [reflexivity|].
  apply (C8_init_has_no_lifecycle_guard Script scripted two_inits after_first_init).
  reflexivity.
Defined.

(** C5, as stated, fails: [update] advances the frame and stops there; it
    calls no Manager's [update] (the RenderManager's would show as a
    [Component_update] of the component it owns). *)
Lemma C5_counterexample_no_manager_update :
  PapagayoEngine_update scripted (boot [] true) =
    (Normal tt,
     MkProcess (MkWorld [] true) ∅ 1%positive None None
       [Called Root_renderOneFrame (Returns true)]) /\
  calls_of (log (snd (RenderManager_update scripted render_manager_with_one
                        (boot [] true)))) =
    [Root_renderOneFrame; Component_update 7%positive] /\
  Component_update 7%positive ∉
    calls_of (log (snd (PapagayoEngine_update scripted (boot [] true)))).
Proof.
  split; [reflexivity|]. split; [reflexivity|].
  cbn. intros H. apply list_elem_of_singleton in H. discriminate.
Qed.

(** C5 (amended): [update] makes exactly one call, [renderOneFrame], and
    calls no Manager.  When that call returns, [update] returns; when it
    throws, [update] lets out a [runtime_error] that starts with
    "Fallo de renderizado" for a [std::exception] and the thrown value
    itself otherwise, and the loop of [run] ends at once with that
    exception: the log stops with the frame that threw. *)
Theorem C5_update_is_one_frame_advance :
  forall (Ext : Type) (outside : Call -> @World Ext -> outcome * @World Ext)
         (p : @Process Ext) (fuel : nat),
    running_ (world p) = true ->
    log (snd (PapagayoEngine_update outside p)) =
      (log p ++ [Called Root_renderOneFrame
                   (fst (outside Root_renderOneFrame (world p)))])%list /\
    world (snd (PapagayoEngine_update outside p)) = frame_world outside (world p) /\
    match fst (outside Root_renderOneFrame (world p)) with
    | Returns _ => fst (PapagayoEngine_update outside p) = Normal tt
    | Throws e =>
        fst (PapagayoEngine_update outside p) = Raised (update_rethrown e) /\
        exists p' : @Process Ext,
          main_loop outside (S fuel) p = Some (Raised (update_rethrown e), p') /\
          log p' = (log p ++ [LoopTest true;
                              Called Root_renderOneFrame (Throws e)])%list
    end.
Proof.
  intros Ext outside p fuel Hrun.
  rewrite (update_eq outside p). cbn [fst snd log world].
  split; [reflexivity|]. split; [reflexivity|].
  destruct (fst (outside Root_renderOneFrame (world p))) as [b|e] eqn:Ho;
    [reflexivity|].
  split; [reflexivity|].
  rewrite (main_loop_frame outside fuel p Hrun). cbv zeta. rewrite Ho.
  eexists. split; reflexivity.
Qed.

(** C5 (amended) in a world whose first frame throws. *)
Lemma C5_update_is_one_frame_advance_witness :
  running_ (world frame_throws) = true /\
  log (snd (PapagayoEngine_update scripted frame_throws)) =
    (log frame_throws ++
     [Called Root_renderOneFrame
        (fst (scripted Root_renderOneFrame (world frame_throws)))])%list /\
  world (snd (PapagayoEngine_update scripted frame_throws)) =
    frame_world scripted (world frame_throws) /\
  match fst (scripted Root_renderOneFrame (world frame_throws)) with
  | Returns _ => fst (PapagayoEngine_update scripted frame_throws) = Normal tt
  | Throws e =>
      fst (PapagayoEngine_update scripted frame_throws) = Raised (update_rethrown e) /\
      exists p' : @Process Script,
        main_loop scripted 4 frame_throws = Some (Raised (update_rethrown e), p') /\
        log p' = (log frame_throws ++
                  [LoopTest true; Called Root_renderOneFrame (Throws e)])%list
  end.
Proof.
  split; [reflexivity|].
  apply (C5_update_is_one_frame_advance Script scripted frame_throws 3).
  reflexivity.
Defined.

(** C3: [run] calls [init] and then loops, reading [running_] before each
    [update].  In a world where the flag is up at the top of each of the
    first [k] frames and is down once the [k]-th has run (so it was lowered
    while that frame was in flight), [run] ends, given fuel for [k] frames
    or more: it has made exactly [k] [update] calls, each right after a test
    that saw the flag up, the frame during which the flag was lowered has
    run to its end, and the last thing [run] did is the test that saw the
    flag down.  And whatever the world does, a run that ends has made its
    [update] calls each right after a test that saw the flag up, and has
    made none after a test that saw it down. *)
Theorem C3_run_tests_flag_before_each_update :
  forall (Ext : Type) (outside : Call -> @World Ext -> outcome * @World Ext)
         (p p0 : @Process Ext) (k extra : nat),
    PapagayoEngine_init outside p = (Normal tt, p0) ->
    stops_after outside k (world p0) ->
    (exists bs : list bool,
       length bs = k /\
       PapagayoEngine_run outside (S k + extra) p =
         Some (Normal tt,
               MkProcess (world_after outside k (world p0)) (heap p0) (next_ptr p0)
                         (engine_instance_ p0) (ui_instance_ p0)
                         (log p0
                          ++ flat_map (fun b => [LoopTest true;
                                                 Called Root_renderOneFrame (Returns b)]) bs
                          ++ [LoopTest false]))) /\
    (forall (fuel : nat) (r : res unit) (p' : @Process Ext),
       PapagayoEngine_run outside fuel p = Some (r, p') ->
       exists (bs : list bool) (tail : list Event),
         log p' =
           (log p0
            ++ flat_map (fun b => [LoopTest true;
                                   Called Root_renderOneFrame (Returns b)]) bs
            ++ tail)%list /\
         ((r = Normal tt /\ tail = [LoopTest false]) \/
          (exists e : exn,
             r = Raised (update_rethrown e) /\
             tail = [LoopTest true; Called Root_renderOneFrame (Throws e)]))).
Proof.
  intros Ext outside p p0 k extra Hinit Hs. split.
  - destruct (frames_log_shape outside k (world p0) Hs) as (bs & Hlen & Hbs).
    exists bs. split; [exact Hlen|].
    unfold PapagayoEngine_run. rewrite Hinit.
    rewrite (main_loop_runs_frames outside k extra p0 Hs). now rewrite Hbs.
  - intros fuel r p'. unfold PapagayoEngine_run. rewrite Hinit.
    apply main_loop_log.
Qed.

(** C3 in a world of three frames, the third lowering the flag. *)
Lemma C3_run_tests_flag_before_each_update_witness :
  PapagayoEngine_init scripted three_frames =
    (Normal tt, snd (PapagayoEngine_init scripted three_frames)) /\
  stops_after scripted 3 (world (snd (PapagayoEngine_init scripted three_frames))) /\
  (exists bs : list bool,
     length bs = 3 /\
     PapagayoEngine_run scripted (4 + 10) three_frames =
       Some (Normal tt,
             MkProcess
               (world_after scripted 3
                  (world (snd (PapagayoEngine_init scripted three_frames))))
               (heap (snd (PapagayoEngine_init scripted three_frames)))
               (next_ptr (snd (PapagayoEngine_init scripted three_frames)))
               (engine_instance_ (snd (PapagayoEngine_init scripted three_frames)))
               (ui_instance_ (snd (PapagayoEngine_init scripted three_frames)))
               (log (snd (PapagayoEngine_init scripted three_frames))
                ++ flat_map (fun b => [LoopTest true;
                                       Called Root_renderOneFrame (Returns b)]) bs
                ++ [LoopTest false]))) /\
  (forall (fuel : nat) (r : res unit) (p' : @Process Script),
     PapagayoEngine_run scripted fuel three_frames = Some (r, p') ->
     exists (bs : list bool) (tail : list Event),
       log p' =
         (log (snd (PapagayoEngine_init scripted three_frames))
          ++ flat_map (fun b => [LoopTest true;
                                 Called Root_renderOneFrame (Returns b)]) bs
          ++ tail)%list /\
       ((r = Normal tt /\ tail = [LoopTest false]) \/
        (exists e : exn,
           r = Raised (update_rethrown e) /\
           tail = [LoopTest true; Called Root_renderOneFrame (Throws e)]))).
Proof.
  assert (stops_after scripted 3
            (world (snd (PapagayoEngine_init scripted three_frames)))) as Hstop.
  { split.
    - intros i Hi.
      destruct i as [|[|[|i]]]; [split; [reflexivity|now exists true]..|lia].
    - reflexivity. }
  split; [reflexivity|]. split; [exact Hstop|].
  apply (C3_run_tests_flag_before_each_update Script scripted three_frames
           (snd (PapagayoEngine_init scripted three_frames)) 3 10).
  - reflexivity.
  - exact Hstop.
Defined.

(** ** Managers: [start] and [update] *)

Section ManagerFacts.
Context {Ext : Type}.
Variable outside : Call -> @World Ext -> outcome * @World Ext.
Implicit Types p : @Process Ext.

Lemma calls_of_app (l1 l2 : list Event) :
  calls_of (l1 ++ l2) = (calls_of l1 ++ calls_of l2)%list.
Proof. apply omap_app. Qed.

Lemma calls_of_cons_called (c : Call) (o : outcome) (evs : list Event) :
  calls_of (Called c o :: evs) = c :: calls_of evs.
Proof. reflexivity. Qed.

Lemma call_then_ret c p :
  (call outside c ;;; ret tt) p =
    (match fst (outside c (world p)) with
     | Returns _ => Normal tt
     | Throws e => Raised e
     end,
     MkProcess (snd (outside c (world p))) (heap p) (next_ptr p)
               (engine_instance_ p) (ui_instance_ p)
               (log p ++ [Called c (fst (outside c (world p)))])).
Proof.
  unfold bind, call, ret. now destruct (outside c (world p)) as [[b|e] w'].
Qed.

Lemma for_each_run (mk : ptr -> Call) (l : list ptr) :
  forall p (r : res unit) p',
    for_each l (fun cmp => call outside (mk cmp) ;;; ret tt) p = (r, p') ->
    exists evs : list Event,
      log p' = (log p ++ evs)%list /\ loop_shape mk l r evs.
Proof.
  set (body := fun cmp => call outside (mk cmp) ;;; ret tt).
  induction l as [|c l IH]; intros p r p' Hrun.
  - injection Hrun as <- <-. exists []. cbn. rewrite app_nil_r.
    repeat split. constructor.
  - cbn [for_each] in Hrun. unfold bind at 1 in Hrun.
    change (body c p) with ((call outside (mk c) ;;; ret tt) p) in Hrun.
    rewrite call_then_ret in Hrun.
    destruct (fst (outside (mk c) (world p))) as [b|e].
    + apply IH in Hrun as (evs & Hlog & Hshape).
      cbn [log] in Hlog. rewrite <- app_assoc in Hlog.
      exists (Called (mk c) (Returns b) :: evs). split; [exact Hlog|].
      destruct r as [[]|e|]; unfold loop_shape in Hshape |- *.
      * destruct Hshape as [Hc HF]. rewrite calls_of_cons_called, Hc.
        split; [reflexivity|]. constructor; [exact I|exact HF].
      * destruct Hshape as (done & cmp & n & -> & HF & Hc & Hl).
        exists (Called (mk c) (Returns b) :: done), cmp, (S n).
        rewrite calls_of_cons_called, Hc.
        repeat split; [constructor; [exact I|exact HF]|exact Hl].
      * exact Hshape.
    + injection Hrun as <- <-.
      exists [Called (mk c) (Throws e)]. cbn. split; [reflexivity|].
      exists [], c, 0. repeat split. constructor.
Qed.

Lemma for_each_events (mk : ptr -> Call) (l : list ptr) p :
  exists evs : list Event,
    log (snd (for_each l (fun cmp => call outside (mk cmp) ;;; ret tt) p)) =
      (log p ++ evs)%list /\
    loop_shape mk l
      (fst (for_each l (fun cmp => call outside (mk cmp) ;;; ret tt) p)) evs.
Proof.
  apply for_each_run. now destruct (for_each l _ p).
Qed.

Lemma RenderManager_update_eq (this : Manager) p :
  RenderManager_update outside this p =
    match outside Root_renderOneFrame (world p) with
    | (Returns b, w') =>
        for_each (_compsList this)
          (fun cmp => call outside (Component_update cmp) ;;; ret tt)
          (MkProcess w' (heap p) (next_ptr p) (engine_instance_ p) (ui_instance_ p)
                     (log p ++ [Called Root_renderOneFrame (Returns b)]))
    | (Throws e, w') =>
        (Raised e,
         MkProcess w' (heap p) (next_ptr p) (engine_instance_ p) (ui_instance_ p)
                   (log p ++ [Called Root_renderOneFrame (Throws e)]))
    end.
Proof.
  unfold RenderManager_update. unfold bind at 1, call at 1.
  now destruct (outside Root_renderOneFrame (world p)) as [[b|e] w'].
Qed.

Lemma RenderManager_update_events (this : Manager) p :
  exists (o : outcome) (evs : list Event),
    log (snd (RenderManager_update outside this p)) =
      (log p ++ Called Root_renderOneFrame o :: evs)%list /\
    match o with
    | Returns _ =>
        loop_shape Component_update (_compsList this)
          (fst (RenderManager_update outside this p)) evs
    | Throws e =>
        evs = [] /\ fst (RenderManager_update outside this p) = Raised e
    end.
Proof.
  rewrite RenderManager_update_eq.
  destruct (outside Root_renderOneFrame (world p)) as [[b|e] w'].
  - match goal with
    | |- context [for_each ?l ?body ?q] =>
        destruct (for_each_events Component_update l q) as (evs & Hlog & Hshape)
    end.
    exists (Returns b), evs. cbn [log] in Hlog. rewrite <- app_assoc in Hlog.
    split; [exact Hlog|exact Hshape].
  - exists (Throws e), []. now cbn.
Qed.

Lemma render_frames_calls (this : Manager) (n : nat) :
  forall p p',
    render_frames outside n this p = (Normal tt, p') ->
    calls_of (log p') =
      (calls_of (log p)
       ++ concat (replicate n
            (Root_renderOneFrame :: map Component_update (_compsList this))))%list.
Proof.
  induction n as [|n IH]; intros p p' Hrun.
  - injection Hrun as <-. cbn. now rewrite app_nil_r.
  - cbn [render_frames] in Hrun. unfold bind in Hrun.
    destruct (RenderManager_update_events this p) as (o & evs & Hlog & Hshape).
    destruct (RenderManager_update outside this p) as [[[]|e|] p1];
      try discriminate.
    cbn [fst snd] in Hlog, Hshape.
    destruct o as [b|e]; [|now destruct Hshape].
    destruct Hshape as [Hc _].
    rewrite (IH p1 p' Hrun), Hlog, calls_of_app. cbn [replicate concat].
    change (calls_of (Called Root_renderOneFrame (Returns b) :: evs))
      with (Root_renderOneFrame :: calls_of evs).
    rewrite Hc. now rewrite <- !app_assoc.
Qed.

(** The list of a manager after a sequence of [addComponent] requests. *)
Lemma add_components_list (types : list string) (reqs : list (string * ptr)) :
  forall this : Manager,
    _compsList (add_components types reqs this) =
      (_compsList this ++ inserted types reqs)%list.
Proof.
  induction reqs as [|rq reqs IH]; intros this.
  - cbn. now rewrite app_nil_r.
  - unfold add_components, inserted in *. cbn [foldl omap list_omap].
    rewrite IH. unfold Manager_addComponent.
    destruct (decide (fst rq ∈ types)) as [Hin|Hin]; cbn.
    + now rewrite <- app_assoc.
    + reflexivity.
Qed.

(** No request adds a component to a UIManager. *)
Lemma add_components_UIManager (reqs : list (string * ptr)) :
  _compsList (add_components UIManager_types reqs (MkManager [] UI)) = [].
Proof.
  rewrite add_components_list. cbn [_compsList app]. unfold inserted.
  induction reqs as [|rq reqs IH]; [reflexivity|].
  cbn [omap list_omap]. rewrite decide_False by apply not_elem_of_nil. exact IH.
Qed.

(** The UIManager that a successful [setUpInstance] creates. *)
Lemma UI_setUpInstance_builds p p' :
  ui_instance_ p = None ->
  UIManager_setUpInstance outside p = (Normal true, p') ->
  exists a : ptr,
    ui_instance_ p' = Some a /\
    heap p' !! a = Some (UIManagerObj (MkManager [] UI)).
Proof.
  intros Hi Hrun. rewrite (UI_setUpInstance_fresh outside p Hi) in Hrun.
  destruct (outside UIManager_ctor_body (world p)) as [[b|e] w']; [|discriminate].
  injection Hrun as <-. exists (next_ptr p). cbn.
  split; [reflexivity|apply lookup_insert_eq].
Qed.

End ManagerFacts.

(** C6: [start] calls [setUp] once on every component the manager owns, in
    the order of the list, which is the order of insertion, and on nothing
    else.  [RenderManager::start] walks its list, whatever it holds, in
    list order, one call per entry, up to the first call that throws; when
    it returns every entry has been set up.  After any sequence of
    [addComponent] requests on a new RenderManager the list holds the
    components of the accepted requests in the order they came.  The
    UIManager that [setUpInstance] creates has an empty list, and the list
    stays empty under any sequence of [addComponent] requests, none of
    which names a type it has a factory for; its [start], which does
    nothing, has then called [setUp] on every component it owns. *)
Theorem C6_start_walks_the_component_list :
  forall (Ext : Type) (outside : Call -> @World Ext -> outcome * @World Ext)
         (this : Manager) (reqs : list (string * ptr)) (p : @Process Ext),
    (exists evs : list Event,
       log (snd (RenderManager_start outside this p)) = (log p ++ evs)%list /\
       match fst (RenderManager_start outside this p) with
       | Normal _ =>
           calls_of evs = map Component_setUp (_compsList this) /\
           Forall returned evs
       | Raised e =>
           exists (done : list Event) (cmp : ptr) (n : nat),
             evs = (done ++ [Called (Component_setUp cmp) (Throws e)])%list /\
             Forall returned done /\
             calls_of done = map Component_setUp (take n (_compsList this)) /\
             _compsList this !! n = Some cmp
       | Undefined => False
       end) /\
    _compsList (add_components RenderManager_types reqs (MkManager [] Render)) =
      inserted RenderManager_types reqs /\
    (forall p' : @Process Ext,
       ui_instance_ p = None ->
       UIManager_setUpInstance outside p = (Normal true, p') ->
       exists a : ptr,
         ui_instance_ p' = Some a /\
         heap p' !! a = Some (UIManagerObj (MkManager [] UI))) /\
    _compsList (add_components UIManager_types reqs (MkManager [] UI)) = [] /\
    (exists evs : list Event,
       log (snd (UIManager_start (add_components UIManager_types reqs (MkManager [] UI)) p)) =
         (log p ++ evs)%list /\
       fst (UIManager_start (add_components UIManager_types reqs (MkManager [] UI)) p) =
         Normal tt /\
       calls_of evs =
         map Component_setUp
           (_compsList (add_components UIManager_types reqs (MkManager [] UI)))) /\
    UIManager_start this p = (Normal tt, p).
Proof.
  intros Ext outside this reqs p.
  split; [exact (for_each_events outside Component_setUp (_compsList this) p)|].
  split; [apply add_components_list|].
  split; [intros p' Hi Hrun; exact (UI_setUpInstance_builds outside p p' Hi Hrun)|].
  split; [apply add_components_UIManager|].
  split; [|reflexivity].
  exists []. rewrite add_components_UIManager. cbn. now rewrite app_nil_r.
Qed.

(** C6 in a booted process: the UIManager that [setUpInstance] creates
    owns nothing, and a new RenderManager asked for a camera, a button and
    a mesh owns the camera and the mesh, in this order. *)
Lemma C6_start_walks_the_component_list_witness :
  ui_instance_ (boot [] true) = None /\
  UIManager_setUpInstance scripted (boot [] true) = (Normal true, ui_up) /\
  (exists a : ptr,
     ui_instance_ ui_up = Some a /\
     heap ui_up !! a = Some (UIManagerObj (MkManager [] UI))) /\
  _compsList (add_components RenderManager_types camera_button_mesh
                (MkManager [] Render)) = [7%positive; 9%positive].
Proof.
  destruct (C6_start_walks_the_component_list Script scripted
              render_manager_with_two camera_button_mesh (boot [] true))
    as (_ & Hins & Hui & _).
  split; [reflexivity|]. split; [reflexivity|].
  split; [apply (Hui ui_up); reflexivity|exact Hins].
Defined.

(** C7: [update] first does the manager's own per-frame work and then
    calls [update] on every component the manager owns, in the order of the
    list, which is the order of insertion and the same in every frame.
    [RenderManager::update] first calls [renderOneFrame] and, when that
    returns, [update] on the entries of its list in list order, one call
    per entry, up to the first call that throws; over any number of frames
    that all return, every frame makes the same calls in the same order.
    After any sequence of [addComponent] requests on a new RenderManager
    the list holds the components of the accepted requests in the order
    they came.  The UIManager that [setUpInstance] creates has an empty
    list, and the list stays empty under any sequence of [addComponent]
    requests; its [update], which does nothing of its own, has then called
    [update] on every component it owns. *)
Theorem C7_update_frame_then_component_list :
  forall (Ext : Type) (outside : Call -> @World Ext -> outcome * @World Ext)
         (this : Manager) (reqs : list (string * ptr))
         (p p' : @Process Ext) (n : nat),
    render_frames outside n this p = (Normal tt, p') ->
    (exists (o : outcome) (evs : list Event),
       log (snd (RenderManager_update outside this p)) =
         (log p ++ Called Root_renderOneFrame o :: evs)%list /\
       match o with
       | Returns _ =>
           match fst (RenderManager_update outside this p) with
           | Normal _ =>
               calls_of evs = map Component_update (_compsList this) /\
               Forall returned evs
           | Raised e =>
               exists (done : list Event) (cmp : ptr) (i : nat),
                 evs = (done ++ [Called (Component_update cmp) (Throws e)])%list /\
                 Forall returned done /\
                 calls_of done = map Component_update (take i (_compsList this)) /\
                 _compsList this !! i = Some cmp
           | Undefined => False
           end
       | Throws e =>
           evs = [] /\ fst (RenderManager_update outside this p) = Raised e
       end) /\
    calls_of (log p') =
      (calls_of (log p)
       ++ concat (replicate n
            (Root_renderOneFrame :: map Component_update (_compsList this))))%list /\
    _compsList (add_components RenderManager_types reqs (MkManager [] Render)) =
      inserted RenderManager_types reqs /\
    (forall q : @Process Ext,
       ui_instance_ p = None ->
       UIManager_setUpInstance outside p = (Normal true, q) ->
       exists a : ptr,
         ui_instance_ q = Some a /\
         heap q !! a = Some (UIManagerObj (MkManager [] UI))) /\
    _compsList (add_components UIManager_types reqs (MkManager [] UI)) = [] /\
    (exists evs : list Event,
       log (snd (UIManager_update (add_components UIManager_types reqs (MkManager [] UI)) p)) =
         (log p ++ evs)%list /\
       fst (UIManager_update (add_components UIManager_types reqs (MkManager [] UI)) p) =
         Normal tt /\
       calls_of evs =
         map Component_update
           (_compsList (add_components UIManager_types reqs (MkManager [] UI)))) /\
    UIManager_update this p = (Normal tt, p).
Proof.
  intros Ext outside this reqs p p' n Hrun.
  split; [exact (RenderManager_update_events outside this p)|].
  split; [exact (render_frames_calls outside this n p p' Hrun)|].
  split; [apply add_components_list|].
  split; [intros q Hi Hq; exact (UI_setUpInstance_builds outside p q Hi Hq)|].
  split; [apply add_components_UIManager|].
  split; [|reflexivity].
  exists []. rewrite add_components_UIManager. cbn. now rewrite app_nil_r.
Qed.

(** C7 on two frames of a RenderManager with two components, and on the
    UIManager that [setUpInstance] creates in a booted process. *)
Lemma C7_update_frame_then_component_list_witness :
  render_frames scripted 2 render_manager_with_two (boot [] true) =
    (Normal tt, snd (render_frames scripted 2 render_manager_with_two (boot [] true))) /\
  calls_of (log (snd (render_frames scripted 2 render_manager_with_two (boot [] true)))) =
    (calls_of (log (boot [] true))
     ++ concat (replicate 2
          (Root_renderOneFrame
             :: map Component_update (_compsList render_manager_with_two))))%list /\
  UIManager_update (Ext:=Script) render_manager_with_two (boot [] true) =
    (Normal tt, boot [] true) /\
  UIManager_setUpInstance scripted (boot [] true) = (Normal true, ui_up) /\
  (exists a : ptr,
     ui_instance_ ui_up = Some a /\
     heap ui_up !! a = Some (UIManagerObj (MkManager [] UI))) /\
  _compsList (add_components RenderManager_types camera_button_mesh
                (MkManager [] Render)) = [7%positive; 9%positive].
Proof.
  split; [reflexivity|].
  destruct (C7_update_frame_then_component_list Script scripted
              render_manager_with_two camera_button_mesh (boot [] true)
              (snd (render_frames scripted 2 render_manager_with_two (boot [] true))) 2
              eq_refl)
    as (_ & Hframes & Hins & Hui & _ & _ & Hnone).
  split; [exact Hframes|]. split; [exact Hnone|]. split; [reflexivity|].
  split; [apply (Hui ui_up); reflexivity|exact Hins].
Defined.

(** ** Scene: disambiguation of entity names *)

Section SceneFacts.











End SceneFacts.




(** The example of the specification: "Enemy" three times. *)
Example Enemy_three_times :
  entities (add_all "Enemy" [11; 12; 13]%positive Scene_new) =
    <["Enemy_2":=13%positive]> (<["Enemy_1":=12%positive]> (<["Enemy":=11%positive]> ∅)) /\
  usedNames (add_all "Enemy" [11; 12; 13]%positive Scene_new) = {["Enemy" := 2%Z]}.
Proof. split; vm_compute; reflexivity. Qed.

(** * Further properties of the engine and of the managers *)

Section MoreSingletonFacts.
Context {Ext : Type}.
Implicit Types p : @Process Ext.

Lemma getInstance_fresh p :
  engine_instance_ p = None ->
  PapagayoEngine_getInstance p =
    (Normal (Some (next_ptr p)),
     MkProcess (world p)
               (<[next_ptr p:=PapagayoEngineObj "PAPAGAYO ENGINE"]> (heap p))
               (Pos.succ (next_ptr p)) (Some (next_ptr p)) (ui_instance_ p) (log p)).
Proof.
  intros Hi. unfold PapagayoEngine_getInstance. unfold bind at 1.
  unfold get_engine_instance at 1. rewrite Hi. unfold bind at 1.
  rewrite (setupInstance_fresh p _ Hi). reflexivity.
Qed.

Variable outside : Call -> @World Ext -> outcome * @World Ext.

(** [clean], by what the two managers answer. *)
Lemma clean_eq p :
  PapagayoEngine_clean outside p =
    match outside SceneManager_clean (world p) with
    | (Throws e, w1) =>
        (Raised e,
         MkProcess w1 (heap p) (next_ptr p) (engine_instance_ p) (ui_instance_ p)
                   (log p ++ [Called SceneManager_clean (Throws e)]))
    | (Returns b1, w1) =>
        match outside ResourceManager_clean w1 with
        | (Throws e, w2) =>
            (Raised e,
             MkProcess w2 (heap p) (next_ptr p) (engine_instance_ p) (ui_instance_ p)
                       (log p ++ [Called SceneManager_clean (Returns b1);
                                  Called ResourceManager_clean (Throws e)]))
        | (Returns b2, w2) =>
            delete_ (engine_instance_ p)
              (MkProcess w2 (heap p) (next_ptr p) (engine_instance_ p) (ui_instance_ p)
                         (log p ++ [Called SceneManager_clean (Returns b1);
                                    Called ResourceManager_clean (Returns b2)]))
        end
    end.
Proof.
  unfold PapagayoEngine_clean, bind, call, get_engine_instance.
  cbn [world heap next_ptr engine_instance_ ui_instance_ log].
  destruct (outside SceneManager_clean (world p)) as [[b1|e1] w1]; [|reflexivity].
  cbn [world heap next_ptr engine_instance_ ui_instance_ log].
  destruct (outside ResourceManager_clean w1) as [[b2|e2] w2];
    cbn [world heap next_ptr engine_instance_ ui_instance_ log];
    rewrite <- app_assoc; reflexivity.
Qed.

End MoreSingletonFacts.

(** X1: [getInstance] never throws: in every state it returns a non-null
    pointer, which is [instance_] afterwards.  With an engine in place it
    changes nothing; without one it creates the engine under the name
    "PAPAGAYO ENGINE" (the [throw] of its body is never reached). *)
Theorem X1_getInstance_never_throws :
  forall (Ext : Type) (p : @Process Ext),
    exists a : ptr,
      fst (PapagayoEngine_getInstance p) = Normal (Some a) /\
      engine_instance_ (snd (PapagayoEngine_getInstance p)) = Some a /\
      match engine_instance_ p with
      | Some a0 => a = a0 /\ snd (PapagayoEngine_getInstance p) = p
      | None =>
          a = next_ptr p /\
          heap (snd (PapagayoEngine_getInstance p)) =
            <[a:=PapagayoEngineObj "PAPAGAYO ENGINE"]> (heap p) /\
          world (snd (PapagayoEngine_getInstance p)) = world p /\
          log (snd (PapagayoEngine_getInstance p)) = log p
      end.
Proof.
  intros Ext p. destruct (engine_instance_ p) as [a0|] eqn:Hi.
  - exists a0. rewrite (getInstance_taken p a0 Hi). cbn. now rewrite Hi.
  - exists (next_ptr p). rewrite (getInstance_fresh p Hi). cbn. easy.
Qed.

(** X2: whoever comes first names the engine.  After
    [setupInstance(appName)] on a process without engine, [getInstance]
    returns the object named [appName]; after a first [getInstance], a
    later [setupInstance(appName)] returns [false] and the engine keeps the
    name "PAPAGAYO ENGINE". *)
Theorem X2_first_creator_names_the_engine :
  forall (Ext : Type) (p : @Process Ext) (appName : string),
    engine_instance_ p = None ->
    (exists a : ptr,
       fst (PapagayoEngine_getInstance
              (snd (PapagayoEngine_setupInstance appName p))) = Normal (Some a) /\
       heap (snd (PapagayoEngine_getInstance
                    (snd (PapagayoEngine_setupInstance appName p)))) !! a =
         Some (PapagayoEngineObj appName)) /\
    (exists a : ptr,
       fst (PapagayoEngine_getInstance p) = Normal (Some a) /\
       fst (PapagayoEngine_setupInstance appName
              (snd (PapagayoEngine_getInstance p))) = Normal false /\
       heap (snd (PapagayoEngine_setupInstance appName
                    (snd (PapagayoEngine_getInstance p)))) !! a =
         Some (PapagayoEngineObj "PAPAGAYO ENGINE")).
Proof.
  intros Ext p appName Hi. split.
  - exists (next_ptr p). rewrite (setupInstance_fresh p appName Hi). cbn [snd].
    rewrite (getInstance_taken _ (next_ptr p)) by reflexivity.
    cbn. split; [reflexivity|apply lookup_insert_eq].
  - exists (next_ptr p). rewrite (getInstance_fresh p Hi). cbn [fst snd].
    rewrite (setupInstance_taken _ (next_ptr p)) by reflexivity.
    cbn. repeat split. apply lookup_insert_eq.
Qed.

(** X2 on a new process and the name "game". *)
Lemma X2_first_creator_names_the_engine_witness :
  engine_instance_ (boot [] true) = None /\
  (exists a : ptr,
     fst (PapagayoEngine_getInstance
            (snd (PapagayoEngine_setupInstance "game" (boot [] true)))) =
       Normal (Some a) /\
     heap (snd (PapagayoEngine_getInstance
                  (snd (PapagayoEngine_setupInstance "game" (boot [] true))))) !! a =
       Some (PapagayoEngineObj "game")) /\
  (exists a : ptr,
     fst (PapagayoEngine_getInstance (boot [] true)) = Normal (Some a) /\
     fst (PapagayoEngine_setupInstance "game"
            (snd (PapagayoEngine_getInstance (boot [] true)))) = Normal false /\
     heap (snd (PapagayoEngine_setupInstance "game"
                  (snd (PapagayoEngine_getInstance (boot [] true))))) !! a =
       Some (PapagayoEngineObj "PAPAGAYO ENGINE")).
Proof.
  split; [reflexivity|].
  apply (X2_first_creator_names_the_engine Script (boot [] true) "game").
  reflexivity.
Defined.

(** X3: a second [clean] frees the engine a second time.  Once [clean] has
    completed on a process with an engine, another [clean] whose two manager
    calls return runs into [delete] on storage that is no longer live:
    undefined behaviour. *)
Theorem X3_second_clean_deletes_twice :
  forall (Ext : Type) (outside : Call -> @World Ext -> outcome * @World Ext)
         (p p1 : @Process Ext) (a : ptr) (b1 b2 : bool),
    engine_instance_ p = Some a ->
    PapagayoEngine_clean outside p = (Normal tt, p1) ->
    fst (outside SceneManager_clean (world p1)) = Returns b1 ->
    fst (outside ResourceManager_clean
           (snd (outside SceneManager_clean (world p1)))) = Returns b2 ->
    fst (PapagayoEngine_clean outside p1) = Undefined.
Proof.
  intros Ext outside p p1 a b1 b2 Hi Hclean Hs Hr.
  assert (engine_instance_ p1 = Some a /\ heap p1 !! a = None) as [Hi1 Hh1].
  { rewrite (clean_eq outside p) in Hclean.
    destruct (outside SceneManager_clean (world p)) as [[c1|e1] w1];
      [|discriminate].
    destruct (outside ResourceManager_clean w1) as [[c2|e2] w2];
      [|discriminate].
    rewrite Hi in Hclean. unfold delete_, free in Hclean.
    cbn [world heap next_ptr engine_instance_ ui_instance_ log] in Hclean.
    destruct (heap p !! a); [|discriminate].
    injection Hclean as <-. cbn. split; [reflexivity|apply lookup_delete_eq]. }
  rewrite (clean_eq outside p1).
  destruct (outside SceneManager_clean (world p1)) as [o1 w1].
  cbn [fst snd] in Hs, Hr. subst o1.
  destruct (outside ResourceManager_clean w1) as [o2 w2].
  cbn [fst] in Hr. subst o2.
  rewrite Hi1. unfold delete_, free.
  cbn [world heap next_ptr engine_instance_ ui_instance_ log].
  now rewrite Hh1.
Qed.

(** X3 on a process where the engine has been set up once. *)
Lemma X3_second_clean_deletes_twice_witness :
  engine_instance_ engine_up = Some 1%positive /\
  PapagayoEngine_clean scripted engine_up =
    (Normal tt, snd (PapagayoEngine_clean scripted engine_up)) /\
  fst (PapagayoEngine_clean scripted (snd (PapagayoEngine_clean scripted engine_up))) =
    Undefined.
Proof.
  split; [reflexivity|]. split; [reflexivity|].
  apply (X3_second_clean_deletes_twice Script scripted engine_up
           (snd (PapagayoEngine_clean scripted engine_up)) 1%positive true true);
    reflexivity.
Defined.

(** X4: a [clean] that ends with an exception has not destroyed the engine.
    The exception is the one thrown by [SceneManager::clean] (and
    [ResourceManager::clean] was then not called) or the one thrown by
    [ResourceManager::clean]; heap and [instance_] are as before. *)
Theorem X4_clean_that_throws_keeps_the_engine :
  forall (Ext : Type) (outside : Call -> @World Ext -> outcome * @World Ext)
         (p p' : @Process Ext) (e : exn),
    PapagayoEngine_clean outside p = (Raised e, p') ->
    heap p' = heap p /\
    engine_instance_ p' = engine_instance_ p /\
    (log p' = (log p ++ [Called SceneManager_clean (Throws e)])%list \/
     exists b : bool,
       log p' = (log p ++ [Called SceneManager_clean (Returns b);
                           Called ResourceManager_clean (Throws e)])%list).
Proof.
  intros Ext outside p p' e Hclean. rewrite (clean_eq outside p) in Hclean.
  destruct (outside SceneManager_clean (world p)) as [[b1|e1] w1].
  - destruct (outside ResourceManager_clean w1) as [[b2|e2] w2].
    + exfalso. destruct (engine_instance_ p) as [a|]; [|discriminate].
      unfold delete_, free in Hclean.
      cbn [world heap next_ptr engine_instance_ ui_instance_ log] in Hclean.
      destruct (heap p !! a); discriminate.
    + injection Hclean as <- <-. cbn. repeat split. right. now exists b1.
  - injection Hclean as <- <-. cbn. repeat split. now left.
Qed.

(** X4 in a world where the scene manager's [clean] throws. *)
Lemma X4_clean_that_throws_keeps_the_engine_witness :
  PapagayoEngine_clean scripted scene_clean_throws =
    (Raised (StdException "scene"),
     snd (PapagayoEngine_clean scripted scene_clean_throws)) /\
  heap (snd (PapagayoEngine_clean scripted scene_clean_throws)) =
    heap scene_clean_throws /\
  engine_instance_ (snd (PapagayoEngine_clean scripted scene_clean_throws)) =
    engine_instance_ scene_clean_throws /\
  (log (snd (PapagayoEngine_clean scripted scene_clean_throws)) =
     (log scene_clean_throws
      ++ [Called SceneManager_clean (Throws (StdException "scene"))])%list \/
   exists b : bool,
     log (snd (PapagayoEngine_clean scripted scene_clean_throws)) =
       (log scene_clean_throws
        ++ [Called SceneManager_clean (Returns b);
            Called ResourceManager_clean (Throws (StdException "scene"))])%list).
Proof.
  split; [reflexivity|].
  apply (X4_clean_that_throws_keeps_the_engine Script scripted scene_clean_throws
           (snd (PapagayoEngine_clean scripted scene_clean_throws))
           (StdException "scene")).
  reflexivity.
Defined.

Section MoreEngineFacts.
Context {Ext : Type}.
Variable outside : Call -> @World Ext -> outcome * @World Ext.
Implicit Types p : @Process Ext.

Lemma take_elem_of {A} (n : nat) (l : list A) (x : A) : x ∈ take n l -> x ∈ l.
Proof.
  intros H. rewrite <- (take_drop n l). apply elem_of_app. now left.
Qed.

Lemma calls_of_all_called (evs : list Event) (cs : list Call) :
  Forall (fun ev => match ev with Called _ _ => True | LoopTest _ => False end) evs ->
  calls_of evs = cs ->
  Forall (fun ev => match ev with Called c _ => c ∈ cs | LoopTest _ => False end) evs.
Proof.
  revert cs. induction evs as [|[c o|b] evs IH]; intros cs HF Hc.
  - constructor.
  - rewrite calls_of_cons_called in Hc. subst cs.
    apply Forall_cons in HF as [_ HF]. constructor; [now left|].
    eapply Forall_impl; [apply (IH (calls_of evs) HF eq_refl)|].
    intros [c' o'|b']; [|easy]. intros Hin. now right.
  - apply Forall_cons in HF as [[] _].
Qed.

Lemma never_stops_S (w : @World Ext) :
  never_stops outside w -> never_stops outside (frame_world outside w).
Proof. intros H i. apply (H (S i)). Qed.

Lemma main_loop_never_ends fuel :
  forall p, never_stops outside (world p) -> main_loop outside fuel p = None.
Proof.
  induction fuel as [|fuel IH]; intros p Hns; [reflexivity|].
  destruct (Hns 0) as [Hflag [b Hb]]. cbn [world_after] in Hflag, Hb.
  rewrite (main_loop_frame outside fuel p Hflag). cbv zeta. rewrite Hb.
  apply IH. cbn [world]. now apply never_stops_S.
Qed.

End MoreEngineFacts.

(** X5: when [init] throws, [run] ends with that exception whatever the
    fuel: the loop is not entered, so the flag is not read and no frame is
    rendered; all that was done are calls of [init]. *)
Theorem X5_run_ends_where_init_throws :
  forall (Ext : Type) (outside : Call -> @World Ext -> outcome * @World Ext)
         (p p' : @Process Ext) (e : exn) (fuel : nat),
    PapagayoEngine_init outside p = (Raised e, p') ->
    PapagayoEngine_run outside fuel p = Some (Raised e, p') /\
    exists evs : list Event,
      log p' = (log p ++ evs)%list /\
      Forall init_call_event evs /\
      Root_renderOneFrame ∉ calls_of evs.
Proof.
  intros Ext outside p p' e fuel Hinit. split.
  - unfold PapagayoEngine_run. now rewrite Hinit.
  - destruct (init_events outside p) as (evs & Hlog & Hcalls & Hres).
    rewrite Hinit in Hlog, Hres. cbn [fst snd] in Hlog, Hres.
    exists evs. split; [exact Hlog|].
    destruct Hres as (done & c & e0 & -> & HF & _).
    assert (Forall (fun ev => match ev with
                              | Called _ _ => True
                              | LoopTest _ => False
                              end) (done ++ [Called c (Throws e0)])) as Hall.
    { apply Forall_app. split.
      - eapply Forall_impl; [exact HF|]. now intros [c' [b|e']|b].
      - now constructor. }
    split.
    + eapply Forall_impl;
        [apply (calls_of_all_called _ _ Hall Hcalls)|].
      intros [c' o'|b']; [|easy]. cbn. intros Hin.
      now apply take_elem_of in Hin.
    + rewrite Hcalls. intros Hin. apply take_elem_of in Hin.
      unfold init_calls in Hin.
      repeat (apply elem_of_cons in Hin as [Hin|Hin]; [discriminate|]).
      now apply elem_of_nil in Hin.
Qed.

(** X5 in the world where the first call of [init] throws. *)
Lemma X5_run_ends_where_init_throws_witness :
  PapagayoEngine_init scripted ogre_throws_literal =
    (Raised (Foreign "no display"),
     snd (PapagayoEngine_init scripted ogre_throws_literal)) /\
  PapagayoEngine_run scripted 0 ogre_throws_literal =
    Some (Raised (Foreign "no display"),
          snd (PapagayoEngine_init scripted ogre_throws_literal)) /\
  exists evs : list Event,
    log (snd (PapagayoEngine_init scripted ogre_throws_literal)) =
      (log ogre_throws_literal ++ evs)%list /\
    Forall init_call_event evs /\
    Root_renderOneFrame ∉ calls_of evs.
Proof.
  split; [reflexivity|].
  apply (X5_run_ends_where_init_throws Script scripted ogre_throws_literal
           (snd (PapagayoEngine_init scripted ogre_throws_literal))
           (Foreign "no display") 0).
  reflexivity.
Defined.

(** X6: the loop of [run] has no exit of its own: in a world where the flag
    is up at the top of every frame and every frame returns, [run] does not
    end, whatever fuel it is given. *)
Theorem X6_run_does_not_end_while_flag_is_up :
  forall (Ext : Type) (outside : Call -> @World Ext -> outcome * @World Ext)
         (p p0 : @Process Ext),
    PapagayoEngine_init outside p = (Normal tt, p0) ->
    never_stops outside (world p0) ->
    forall fuel : nat, PapagayoEngine_run outside fuel p = None.
Proof.
  intros Ext outside p p0 Hinit Hns fuel.
  unfold PapagayoEngine_run. rewrite Hinit.
  now apply main_loop_never_ends.
Qed.

(** X6 in the world that answers [true] to everything and leaves the flag
    up. *)
Lemma X6_run_does_not_end_while_flag_is_up_witness :
  PapagayoEngine_init scripted (boot [] true) =
    (Normal tt, snd (PapagayoEngine_init scripted (boot [] true))) /\
  never_stops scripted (world (snd (PapagayoEngine_init scripted (boot [] true)))) /\
  forall fuel : nat, PapagayoEngine_run scripted fuel (boot [] true) = None.
Proof.
  assert (never_stops scripted
            (world (snd (PapagayoEngine_init scripted (boot [] true))))) as Hns.
  { intros i.
    assert (world_after scripted i (MkWorld ([] : Script) true) = MkWorld [] true)
      as Hw by (induction i; [reflexivity|assumption]).
    change (world (snd (PapagayoEngine_init scripted (boot [] true))))
      with (MkWorld ([] : Script) true).
    rewrite Hw. split; [reflexivity|now exists true]. }
  split; [reflexivity|]. split; [exact Hns|].
  apply (X6_run_does_not_end_while_flag_is_up Script scripted (boot [] true)
           (snd (PapagayoEngine_init scripted (boot [] true)))).
  - reflexivity.
  - exact Hns.
Defined.

(** X7: [UIManager::setUpInstance] lets nothing out and its answer tells
    whether a UIManager exists afterwards: in every state it returns a
    boolean, [true] exactly when [instance_] is non-null after the call,
    and [getInstance] then returns that [instance_]. *)
Theorem X7_setUpInstance_reports_existence :
  forall (Ext : Type) (outside : Call -> @World Ext -> outcome * @World Ext)
         (p : @Process Ext),
    exists b : bool,
      fst (UIManager_setUpInstance outside p) = Normal b /\
      (b = true <-> ui_instance_ (snd (UIManager_setUpInstance outside p)) <> None) /\
      fst (UIManager_getInstance (snd (UIManager_setUpInstance outside p))) =
        Normal (ui_instance_ (snd (UIManager_setUpInstance outside p))).
Proof.
  intros Ext outside p. destruct (ui_instance_ p) as [a|] eqn:Hi.
  - exists true. rewrite (UI_setUpInstance_taken outside p a Hi). cbn.
    rewrite Hi. easy.
  - rewrite (UI_setUpInstance_fresh outside p Hi).
    destruct (outside UIManager_ctor_body (world p)) as [[b|e] w'].
    + exists true. cbn. easy.
    + exists false. cbn. easy.
Qed.

(** X8: a failed construction is not remembered.  When [setUpInstance] has
    returned [false] because the constructor threw, the next call runs the
    constructor again; if it completes this time the call returns [true] and
    the new object is [instance_], otherwise it returns [false] again. *)
Theorem X8_setUpInstance_retries_after_failure :
  forall (Ext : Type) (outside : Call -> @World Ext -> outcome * @World Ext)
         (p : @Process Ext) (e : exn),
    ui_instance_ p = None ->
    fst (outside UIManager_ctor_body (world p)) = Throws e ->
    fst (UIManager_setUpInstance outside p) = Normal false /\
    exists o : outcome,
      log (snd (UIManager_setUpInstance outside
                  (snd (UIManager_setUpInstance outside p)))) =
        (log p ++ [Called UIManager_ctor_body (Throws e);
                   Called UIManager_ctor_body o])%list /\
      match o with
      | Returns _ =>
          fst (UIManager_setUpInstance outside
                 (snd (UIManager_setUpInstance outside p))) = Normal true /\
          ui_instance_ (snd (UIManager_setUpInstance outside
                               (snd (UIManager_setUpInstance outside p)))) =
            Some (Pos.succ (next_ptr p))
      | Throws _ =>
          fst (UIManager_setUpInstance outside
                 (snd (UIManager_setUpInstance outside p))) = Normal false /\
          ui_instance_ (snd (UIManager_setUpInstance outside
                               (snd (UIManager_setUpInstance outside p)))) = None
      end.
Proof.
  intros Ext outside p e Hi He.
  rewrite (UI_setUpInstance_fresh outside p Hi).
  destruct (outside UIManager_ctor_body (world p)) as [o1 w1].
  cbn [fst] in He. subst o1. cbn [fst snd]. split; [reflexivity|].
  rewrite UI_setUpInstance_fresh by reflexivity.
  cbn [world heap next_ptr engine_instance_ ui_instance_ log].
  destruct (outside UIManager_ctor_body w1) as [[b|e2] w2].
  - exists (Returns b). cbn. rewrite <- app_assoc. easy.
  - exists (Throws e2). cbn. rewrite <- app_assoc. easy.
Qed.

(** X8 in a world where the constructor throws once and then completes. *)
Lemma X8_setUpInstance_retries_after_failure_witness :
  ui_instance_ ctor_throws = None /\
  fst (scripted UIManager_ctor_body (world ctor_throws)) = Throws (Foreign "CEGUI") /\
  fst (UIManager_setUpInstance scripted ctor_throws) = Normal false /\
  fst (UIManager_setUpInstance scripted
         (snd (UIManager_setUpInstance scripted ctor_throws))) = Normal true /\
  ui_instance_ (snd (UIManager_setUpInstance scripted
                       (snd (UIManager_setUpInstance scripted ctor_throws)))) =
    Some 2%positive.
Proof.
  split; [reflexivity|]. split; [reflexivity|].
  destruct (X8_setUpInstance_retries_after_failure Script scripted ctor_throws
              (Foreign "CEGUI") eq_refl eq_refl) as [Hfirst _].
  split; [exact Hfirst|]. split; reflexivity.
Defined.

(** X9: [start] followed by [update] on the RenderManager, both returning:
    every component is set up, in list order, before the frame is rendered
    and before any component is updated; then the components are updated in
    the same order. *)
Theorem X9_start_then_update_sets_up_before_updating :
  forall (Ext : Type) (outside : Call -> @World Ext -> outcome * @World Ext)
         (this : Manager) (p p1 p2 : @Process Ext),
    RenderManager_start outside this p = (Normal tt, p1) ->
    RenderManager_update outside this p1 = (Normal tt, p2) ->
    calls_of (log p2) =
      (calls_of (log p)
       ++ map Component_setUp (_compsList this)
       ++ Root_renderOneFrame :: map Component_update (_compsList this))%list.
Proof.
  intros Ext outside this p p1 p2 Hstart Hupdate.
  destruct (for_each_run outside Component_setUp (_compsList this) p _ p1 Hstart)
    as (evs1 & Hlog1 & Hc1 & _).
  assert (render_frames outside 1 this p1 = (Normal tt, p2)) as Hframe.
  { cbn [render_frames]. unfold bind. now rewrite Hupdate. }
  rewrite (render_frames_calls outside this 1 p1 p2 Hframe).
  rewrite Hlog1, calls_of_app, Hc1. cbn [replicate concat].
  rewrite app_nil_r. now rewrite <- app_assoc.
Qed.

(** X9 on a RenderManager with two components. *)
Lemma X9_start_then_update_sets_up_before_updating_witness :
  RenderManager_start scripted render_manager_with_two (boot [] true) =
    (Normal tt, snd (RenderManager_start scripted render_manager_with_two (boot [] true))) /\
  calls_of
    (log (snd (RenderManager_update scripted render_manager_with_two
                 (snd (RenderManager_start scripted render_manager_with_two
                         (boot [] true)))))) =
    [Component_setUp 7%positive; Component_setUp 9%positive; Root_renderOneFrame;
     Component_update 7%positive; Component_update 9%positive].
Proof.
  split; [reflexivity|].
  apply (X9_start_then_update_sets_up_before_updating Script scripted
           render_manager_with_two (boot [] true)
           (snd (RenderManager_start scripted render_manager_with_two (boot [] true)))
           (snd (RenderManager_update scripted render_manager_with_two
                   (snd (RenderManager_start scripted render_manager_with_two
                           (boot [] true))))));
    reflexivity.
Defined.

(** X10: [UIManager::destroy] frees the UIManager and leaves [instance_]
    pointing at it.  After a [destroy] that completed, [getInstance] returns
    the address of the destroyed object, and every [setUpInstance] returns
    [true] without constructing anything: nothing is logged and the process
    state stays as it is.  A [destroy] in which [destroySystem] throws has
    freed nothing. *)
Theorem X10_destroy_leaves_instance_dangling :
  forall (Ext : Type) (outside : Call -> @World Ext -> outcome * @World Ext)
         (destroySystem : @World Ext -> outcome * @World Ext)
         (p : @Process Ext) (a : ptr) (obj : Object),
    ui_instance_ p = Some a ->
    heap p !! a = Some obj ->
    match fst (destroySystem (world p)) with
    | Returns _ =>
        fst (UIManager_destroy destroySystem p) = Normal tt /\
        ui_instance_ (snd (UIManager_destroy destroySystem p)) = Some a /\
        heap (snd (UIManager_destroy destroySystem p)) !! a = None /\
        UIManager_getInstance (snd (UIManager_destroy destroySystem p)) =
          (Normal (Some a), snd (UIManager_destroy destroySystem p)) /\
        forall n : nat,
          ui_setups outside n (snd (UIManager_destroy destroySystem p)) =
            (Normal (replicate n true), snd (UIManager_destroy destroySystem p))
    | Throws e =>
        fst (UIManager_destroy destroySystem p) = Raised e /\
        heap (snd (UIManager_destroy destroySystem p)) = heap p /\
        ui_instance_ (snd (UIManager_destroy destroySystem p)) = Some a
    end.
Proof.
  intros Ext outside destroySystem p a obj Hi Hlive.
  unfold UIManager_destroy, UIManager_clean, bind, ret, CEGUI_destroySystem,
    get_ui_instance.
  destruct (destroySystem (world p)) as [[b|e] w'];
    cbn [fst snd world heap next_ptr engine_instance_ ui_instance_ log].
  - rewrite Hi. unfold delete_, free.
    cbn [world heap next_ptr engine_instance_ ui_instance_ log].
    rewrite Hlive. cbn [fst snd ui_instance_ heap].
    split; [reflexivity|]. split; [reflexivity|].
    split; [apply lookup_delete_eq|]. split; [reflexivity|].
    intros n. now apply ui_setups_taken with (a := a).
  - easy.
Qed.

(** X10 on the process where the UIManager has been set up once. *)
Lemma X10_destroy_leaves_instance_dangling_witness :
  ui_instance_ ui_up = Some 1%positive /\
  heap ui_up !! 1%positive = Some (UIManagerObj (MkManager [] UI)) /\
  fst (UIManager_destroy quiet_destroySystem ui_up) = Normal tt /\
  ui_instance_ (snd (UIManager_destroy quiet_destroySystem ui_up)) = Some 1%positive /\
  heap (snd (UIManager_destroy quiet_destroySystem ui_up)) !! 1%positive = None /\
  UIManager_getInstance (snd (UIManager_destroy quiet_destroySystem ui_up)) =
    (Normal (Some 1%positive), snd (UIManager_destroy quiet_destroySystem ui_up)) /\
  forall n : nat,
    ui_setups scripted n (snd (UIManager_destroy quiet_destroySystem ui_up)) =
      (Normal (replicate n true), snd (UIManager_destroy quiet_destroySystem ui_up)).
Proof.
  split; [reflexivity|]. split; [reflexivity|].
  apply (X10_destroy_leaves_instance_dangling Script scripted quiet_destroySystem
           ui_up 1%positive (UIManagerObj (MkManager [] UI)));
    reflexivity.
Defined.

(** * Properties of the UIManager's widget and input functions *)

Ltac next_answer answers :=
  match goal with
  | |- context [answers ?c ?w] =>
      let a := fresh "a" in
      let e := fresh "e" in
      let w' := fresh "w" in
      destruct (answers c w) as [[a|e] w'];
      cbn [fields around made fst snd]
  end.

Section WidgetFacts.
Context {F Around : Type}.
Variable answers : @GuiCall F -> Around -> reply GuiAnswer * Around.
Implicit Types r : @Run UIFields Around (@GuiCall F) GuiAnswer.

(** What [loadLayout] may add to the calls made, and how it ends. *)
Lemma loadLayout_cases (file : string) r :
  let load := WindowManager_loadLayoutFromFile file in
  let out := UIManager_loadLayout answers file r in
  fields (snd out) = fields r /\
  ((exists a b,
      made (snd out) =
        (made r ++ [(load, Answer a);
                    (Window_addChild (winRoot (fields r)) (returned_window a),
                     Answer b)])%list /\
      fst out = Normal tt) \/
   (exists a x,
      made (snd out) =
        (made r ++ [(load, Answer a);
                    (Window_addChild (winRoot (fields r)) (returned_window a),
                     Thrown (Foreign x))])%list /\
      fst out = Raised (Foreign x)) \/
   (exists a what o,
      made (snd out) =
        (made r ++ [(load, Answer a);
                    (Window_addChild (winRoot (fields r)) (returned_window a),
                     Thrown (StdException what));
                    (cout_write what, o)])%list /\
      fst out = match o with Answer _ => Normal tt | Thrown e => Raised e end) \/
   (exists x,
      made (snd out) = (made r ++ [(load, Thrown (Foreign x))])%list /\
      fst out = Raised (Foreign x)) \/
   (exists what o,
      made (snd out) =
        (made r ++ [(load, Thrown (StdException what)); (cout_write what, o)])%list /\
      fst out = match o with Answer _ => Normal tt | Thrown e => Raised e end)).
Proof.
  cbv zeta.
  unfold UIManager_loadLayout, t_try_std, t_bind, ask, get_fields, t_ret.
  destruct (answers (WindowManager_loadLayoutFromFile file) (around r))
    as [[a|[what|x]] w1]; cbn [fields around made fst snd].
  - destruct (answers (Window_addChild (winRoot (fields r)) (returned_window a)) w1)
      as [[b|[what|x]] w2]; cbn [fields around made fst snd].
    + split; [reflexivity|]. left. exists a, b. now rewrite <- app_assoc.
    + destruct (answers (cout_write what) w2) as [[c|e] w3];
        cbn [fields around made fst snd]; (split; [reflexivity|]);
        do 2 right; left; eexists a, what, _; rewrite <- !app_assoc;
        (split; [reflexivity|reflexivity]).
    + split; [reflexivity|]. right. left. exists a, x. now rewrite <- app_assoc.
  - destruct (answers (cout_write what) w1) as [[c|e] w3];
      cbn [fields around made fst snd]; (split; [reflexivity|]);
      do 4 right; eexists what, _; rewrite <- !app_assoc;
      (split; [reflexivity|reflexivity]).
  - split; [reflexivity|]. do 3 right. left. now exists x.
Qed.

End WidgetFacts.

Ltac in_list H :=
  repeat (apply elem_of_cons in H as [H|H]; [simplify_eq|]);
  try (now apply elem_of_nil in H).

(** X11: [loadLayout] lets no [std::exception] of CEGUI out.  Whatever the
    layout loader and the root window do, the members of the UIManager are
    unchanged; an exception leaves [loadLayout] only if it is not a
    [std::exception] or was thrown by the write to [cout]; a child is added
    to the root only after the loader has answered, and it is the window
    the loader returned; whatever is written to [cout] is the [what()] of a
    [std::exception] thrown by the loader or by [addChild]. *)
Theorem X11_loadLayout_swallows_std_exceptions :
  forall (F Around : Type)
         (answers : @GuiCall F -> Around -> reply GuiAnswer * Around)
         (file : string) (r : @Run UIFields Around (@GuiCall F) GuiAnswer),
    fields (snd (UIManager_loadLayout answers file r)) = fields r /\
    exists suffix : list (@GuiCall F * reply GuiAnswer),
      made (snd (UIManager_loadLayout answers file r)) = (made r ++ suffix)%list /\
      (forall e : exn,
         fst (UIManager_loadLayout answers file r) = Raised e ->
         is_std e = false \/
         exists what : string, last suffix = Some (cout_write what, Thrown e)) /\
      (forall (parent child : option ptr) (o : reply GuiAnswer),
         (Window_addChild parent child, o) ∈ suffix ->
         parent = winRoot (fields r) /\
         exists a : GuiAnswer,
           head suffix = Some (WindowManager_loadLayoutFromFile file, Answer a) /\
           child = returned_window a) /\
      (forall (what : string) (o : reply GuiAnswer),
         (cout_write what, o) ∈ suffix ->
         exists c : @GuiCall F,
           (c, Thrown (StdException what)) ∈ suffix /\
           (c = WindowManager_loadLayoutFromFile file \/
            exists child, c = Window_addChild (winRoot (fields r)) child)).
Proof.
  intros F Around answers file r.
  destruct (loadLayout_cases answers file r) as [Hf Hcases].
  cbv zeta in Hf, Hcases. split; [exact Hf|].
  destruct Hcases as
    [(a & b & -> & ->)
    |[(a & x & -> & ->)
    |[(a & what & o & -> & ->)
    |[(x & -> & ->)
    |(what & o & -> & ->)]]]];
    (eexists; split; [reflexivity|]; split;
     [ intros e0 He; cbn in He; try discriminate;
       try (destruct o; try discriminate);
       (injection He as <-;
        first [ now left | right; eexists; reflexivity ])
     | split;
       [ intros parent child o0 H; in_list H;
         (split; [reflexivity|eexists; split; reflexivity])
       | intros w0 o0 H; in_list H;
         (eexists;
          split;
          [ first [ now left | apply elem_of_cons; right; now left ]
          | first [ now left | right; eexists; reflexivity ] ]) ] ]).
Qed.

Ltac walk answers :=
  repeat
    match goal with
    | |- context [answers ?c ?w] =>
        let a := fresh "a" in
        let e := fresh "e" in
        let w' := fresh "w" in
        destruct (answers c w) as [[a|e] w'];
        cbn [fields around made fst snd]
    end.

Lemma create_calls :
  forall (F Around : Type)
         (answers : @GuiCall F -> Around -> reply GuiAnswer * Around)
         (k : WidgetKind) (text : string) (position size : F * F) (name : string)
         (r : @Run UIFields Around (@GuiCall F) GuiAnswer),
    fields (snd (UIManager_create answers k text position size name r)) = fields r /\
    exists (o : reply GuiAnswer) (rest : list (@GuiCall F * reply GuiAnswer)),
      made (snd (UIManager_create answers k text position size name r)) =
        (made r
         ++ (WindowManager_createWindow
               (schemeName (fields r) +:+ kind_suffix k) (creation_name k name), o)
         :: rest)%list /\
      match o with
      | Thrown e =>
          rest = [] /\
          fst (UIManager_create answers k text position size name r) = Raised e
      | Answer a =>
          (forall v : option ptr,
             fst (UIManager_create answers k text position size name r) = Normal v ->
             v = returned_window a /\
             exists b : GuiAnswer,
               last rest =
                 Some (Window_addChild (winRoot (fields r)) (returned_window a),
                       Answer b)) /\
          (forall e : exn,
             fst (UIManager_create answers k text position size name r) = Raised e ->
             exists c : @GuiCall F, last rest = Some (c, Thrown e)) /\
          (forall (parent child : option ptr) (o' : reply GuiAnswer),
             (Window_addChild parent child, o') ∈ rest ->
             last rest = Some (Window_addChild parent child, o') /\
             parent = winRoot (fields r) /\
             child = returned_window a) /\
          (forall (i : nat) (c : @GuiCall F) (e : exn),
             rest !! i = Some (c, Thrown e) ->
             S i = length rest /\
             fst (UIManager_create answers k text position size name r) = Raised e) /\
          map fst rest =
            take (length rest)
              (tail (creator_calls k (schemeName (fields r)) (winRoot (fields r))
                       text position size name (returned_window a))) /\
          (forall v : option ptr,
             fst (UIManager_create answers k text position size name r) = Normal v ->
             map fst rest =
               tail (creator_calls k (schemeName (fields r)) (winRoot (fields r))
                       text position size name (returned_window a))) /\
          fst (UIManager_create answers k text position size name r) <> Undefined
      end.
Proof.
  intros F Around answers k text position size name r.
  destruct k;
    unfold UIManager_create, UIManager_createButton, UIManager_createSlider,
      UIManager_createLabel, UIManager_createImage, UIManager_setWidgetDestRect,
      t_bind, ask, get_fields, t_ret;
    cbn [fields around made fst snd];
    walk answers;
    rewrite <- ?app_assoc; cbn [app];
    (split; [reflexivity|]);
    (eexists _, _; split; [reflexivity|]);
    cbn beta iota;
    try (split; reflexivity);
    (split;
     [ intros v Hv; try discriminate; injection Hv as <-;
       (split; [reflexivity|eexists; reflexivity])
     | split;
       [ intros e' He; try discriminate; injection He as <-;
         eexists; reflexivity
       | split;
         [ intros parent child o' H; in_list H;
           (split; [reflexivity|split; reflexivity])
         | split;
           [ intros i c0 e0 H;
             repeat
               first
                 [ discriminate H
                 | destruct i as [|i]; simpl in H;
                   [ first [ discriminate H
                           | simplify_eq; split; reflexivity ] | ] ]
           | split;
             [ reflexivity
             | split;
               [ intros v Hv; try discriminate; reflexivity
               | discriminate ] ] ] ] ] ]).
Qed.

(** X12: a creator asks for a window of the type "scheme name/kind", sets
    it up and adds it to the root last.  The members of the UIManager are
    unchanged.  When [createWindow] throws, nothing else is called.
    Otherwise the creator stops at the first call that throws, with that
    exception: a call that throws is the last call made, and the creator
    ends with what it threw; the calls made are the first ones of the
    creator's calls in program order, all of them when it returns;
    [addChild] is called at most once, as the last call, on the root and the
    new window; and a creator that returns hands back the window that
    [createWindow] returned, after [addChild] has answered. *)
Theorem X12_creators_add_the_widget_last :
  forall (F Around : Type)
         (answers : @GuiCall F -> Around -> reply GuiAnswer * Around)
         (k : WidgetKind) (text : string) (position size : F * F) (name : string)
         (r : @Run UIFields Around (@GuiCall F) GuiAnswer),
    fields (snd (UIManager_create answers k text position size name r)) = fields r /\
    exists (o : reply GuiAnswer) (rest : list (@GuiCall F * reply GuiAnswer)),
      made (snd (UIManager_create answers k text position size name r)) =
        (made r
         ++ (WindowManager_createWindow
               (schemeName (fields r) +:+ kind_suffix k) (creation_name k name), o)
         :: rest)%list /\
      match o with
      | Thrown e =>
          rest = [] /\
          fst (UIManager_create answers k text position size name r) = Raised e
      | Answer a =>
          (forall v : option ptr,
             fst (UIManager_create answers k text position size name r) = Normal v ->
             v = returned_window a /\
             exists b : GuiAnswer,
               last rest =
                 Some (Window_addChild (winRoot (fields r)) (returned_window a),
                       Answer b)) /\
          (forall e : exn,
             fst (UIManager_create answers k text position size name r) = Raised e ->
             exists c : @GuiCall F, last rest = Some (c, Thrown e)) /\
          (forall (parent child : option ptr) (o' : reply GuiAnswer),
             (Window_addChild parent child, o') ∈ rest ->
             last rest = Some (Window_addChild parent child, o') /\
             parent = winRoot (fields r) /\
             child = returned_window a) /\
          (forall (i : nat) (c : @GuiCall F) (e : exn),
             rest !! i = Some (c, Thrown e) ->
             S i = length rest /\
             fst (UIManager_create answers k text position size name r) = Raised e) /\
          map fst rest =
            take (length rest)
              (tail (creator_calls k (schemeName (fields r)) (winRoot (fields r))
                       text position size name (returned_window a))) /\
          (forall v : option ptr,
             fst (UIManager_create answers k text position size name r) = Normal v ->
             map fst rest =
               tail (creator_calls k (schemeName (fields r)) (winRoot (fields r))
                       text position size name (returned_window a))) /\
          fst (UIManager_create answers k text position size name r) <> Undefined
      end.
Proof.
  intros F Around answers k text position size name r.
  exact (create_calls F Around answers k text position size name r).
Qed.

(** X13: [loadScheme] stores the scheme name before it loads the scheme
    file.  Whether or not [createFromFile] throws, the new name is in force
    afterwards (the root window is untouched), and every widget created
    from then on is asked for under the new name. *)
Theorem X13_loadScheme_stores_the_name_first :
  forall (F Around : Type)
         (answers : @GuiCall F -> Around -> reply GuiAnswer * Around)
         (schemeName_ schemeFile : string)
         (r : @Run UIFields Around (@GuiCall F) GuiAnswer),
    schemeName (fields (snd (UIManager_loadScheme answers schemeName_ schemeFile r))) =
      schemeName_ /\
    winRoot (fields (snd (UIManager_loadScheme answers schemeName_ schemeFile r))) =
      winRoot (fields r) /\
    (exists o : reply GuiAnswer,
       made (snd (UIManager_loadScheme answers schemeName_ schemeFile r)) =
         (made r ++ [(SchemeManager_createFromFile schemeFile, o)])%list /\
       fst (UIManager_loadScheme answers schemeName_ schemeFile r) =
         match o with
         | Answer _ => Normal tt
         | Thrown e => Raised e
         end) /\
    forall (k : WidgetKind) (text : string) (position size : F * F) (name : string),
      exists (o : reply GuiAnswer) (rest : list (@GuiCall F * reply GuiAnswer)),
        made (snd (UIManager_create answers k text position size name
                     (snd (UIManager_loadScheme answers schemeName_ schemeFile r)))) =
          (made (snd (UIManager_loadScheme answers schemeName_ schemeFile r))
           ++ (WindowManager_createWindow
                 (schemeName_ +:+ kind_suffix k) (creation_name k name), o)
           :: rest)%list.
Proof.
  intros F Around answers schemeName_ schemeFile r.
  assert (fields (snd (UIManager_loadScheme answers schemeName_ schemeFile r)) =
          MkUIFields schemeName_ (winRoot (fields r)) /\
          exists o : reply GuiAnswer,
            made (snd (UIManager_loadScheme answers schemeName_ schemeFile r)) =
              (made r ++ [(SchemeManager_createFromFile schemeFile, o)])%list /\
            fst (UIManager_loadScheme answers schemeName_ schemeFile r) =
              match o with
              | Answer _ => Normal tt
              | Thrown e => Raised e
              end) as [Hf Hmade].
  { unfold UIManager_loadScheme, t_bind, ask, get_fields, set_fields, t_ret.
    cbn [fields around made fst snd].
    destruct (answers (SchemeManager_createFromFile schemeFile) (around r))
      as [[a|e] w1]; cbn [fields around made fst snd];
      (split; [reflexivity|eexists; split; reflexivity]). }
  rewrite Hf. cbn [schemeName winRoot].
  split; [reflexivity|]. split; [reflexivity|]. split; [exact Hmade|].
  intros k text position size name.
  destruct (create_calls F Around answers k text position size name
              (snd (UIManager_loadScheme answers schemeName_ schemeFile r)))
    as (_ & o & rest & Hcalls & _).
  rewrite Hf in Hcalls. cbn [schemeName] in Hcalls. now exists o, rest.
Qed.

(** X14: whatever [captureInput] passes on is justified by the event.  It
    leaves the members of the UIManager alone and makes at most two calls,
    at most one for an event of a mouse type.  A button press or release is
    injected only for an event of that type whose button is that button, a
    mouse position only for a motion event and with its coordinates
    converted to [float]; the window is asked for its size, and CEGUI told
    about a new size, only for an event that is of none of the mouse types
    and whose window event is one of the three size changes, and the size
    told is the one the window stored, converted to [float]. *)
Theorem X14_captureInput_passes_on_only_what_the_event_says :
  forall (F Around : Type)
         (answers : @GuiCall F -> Around -> reply GuiAnswer * Around)
         (to_float : Z -> F) (sdl : SDL_names) (ev : SDL_Event)
         (r : @Run UIFields Around (@GuiCall F) GuiAnswer),
    fields (snd (UIManager_captureInput answers to_float sdl ev r)) = fields r /\
    exists suffix : list (@GuiCall F * reply GuiAnswer),
      made (snd (UIManager_captureInput answers to_float sdl ev r)) =
        (made r ++ suffix)%list /\
      Forall (fun c => justified to_float sdl ev (fst c)) suffix /\
      length suffix <= 2 /\
      (mouse_type sdl (event_type ev) -> length suffix <= 1) /\
      (forall (width height : F) (o : reply GuiAnswer),
         (System_notifyDisplaySizeChanged width height, o) ∈ suffix ->
         exists a : GuiAnswer,
           head suffix = Some (RenderWindow_getMetrics, Answer a) /\
           width = to_float (fst (stored_metrics a)) /\
           height = to_float (snd (stored_metrics a))).
Proof.
  intros F Around answers to_float sdl ev r.
  unfold UIManager_captureInput, UIManager_windowResized, t_bind, ask, t_ret.
  repeat case_decide;
    cbn [fields around made fst snd];
    try (destruct (answers RenderWindow_getMetrics (around r)) as [[m|e] w1];
         cbn [fields around made fst snd];
         try (destruct (stored_metrics m) as [width height] eqn:Hm));
    walk answers;
    rewrite <- ?app_assoc; cbn [app];
    (split; [reflexivity|]).
  all: try (eexists; split; [reflexivity|];
            split;
            [ repeat first [ apply List.Forall_nil | apply List.Forall_cons ];
              cbn; unfold mouse_type, resize_code; tauto
            | split; [cbn; lia|];
              split;
              [ unfold mouse_type; cbn; first [lia|tauto]
              | intros width' height' o' Hin; in_list Hin;
                (eexists; split; [reflexivity|rewrite Hm; split; reflexivity]) ] ]).
  all: exists []; rewrite app_nil_r;
       (split; [reflexivity|]);
       (split; [constructor|]);
       (split; [cbn; lia|]);
       (split; [cbn; lia|]);
       intros ? ? ? Hin; now apply elem_of_nil in Hin.
Qed.

(** X15: with SDL names that differ from one another, [captureInput]
    passes every mouse input on, once.  A press or release of the left or
    right button is injected as such, a motion with its coordinates
    converted to [float]; a press or release of any other button does nothing at all.  An event of no
    mouse type asks the window for its size exactly when its window event is
    one of the three size changes, and otherwise does nothing. *)
Theorem X15_captureInput_passes_every_mouse_input_on :
  forall (F Around : Type)
         (answers : @GuiCall F -> Around -> reply GuiAnswer * Around)
         (to_float : Z -> F) (sdl : SDL_names) (ev : SDL_Event)
         (r : @Run UIFields Around (@GuiCall F) GuiAnswer),
    distinct_names sdl ->
    (forall b : MouseButton,
       event_type ev = SDL_MOUSEBUTTONDOWN sdl ->
       button_button ev = button_value sdl b ->
       asked (snd (UIManager_captureInput answers to_float sdl ev r)) =
         (asked r ++ [GUIContext_injectMouseButtonDown b])%list) /\
    (forall b : MouseButton,
       event_type ev = SDL_MOUSEBUTTONUP sdl ->
       button_button ev = button_value sdl b ->
       asked (snd (UIManager_captureInput answers to_float sdl ev r)) =
         (asked r ++ [GUIContext_injectMouseButtonUp b])%list) /\
    (event_type ev = SDL_MOUSEMOTION sdl ->
     asked (snd (UIManager_captureInput answers to_float sdl ev r)) =
       (asked r ++ [GUIContext_injectMousePosition (to_float (motion_x ev))
                                                   (to_float (motion_y ev))])%list) /\
    (event_type ev = SDL_MOUSEBUTTONDOWN sdl \/ event_type ev = SDL_MOUSEBUTTONUP sdl ->
     button_button ev <> SDL_BUTTON_LEFT sdl ->
     button_button ev <> SDL_BUTTON_RIGHT sdl ->
     UIManager_captureInput answers to_float sdl ev r = (Normal tt, r)) /\
    (~ mouse_type sdl (event_type ev) ->
     resize_code sdl (window_event ev) ->
     exists rest : list (@GuiCall F),
       asked (snd (UIManager_captureInput answers to_float sdl ev r)) =
         (asked r ++ RenderWindow_getMetrics :: rest)%list) /\
    (~ mouse_type sdl (event_type ev) ->
     ~ resize_code sdl (window_event ev) ->
     UIManager_captureInput answers to_float sdl ev r = (Normal tt, r)).
Proof.
  intros F Around answers to_float sdl ev r (Hdu & Hdm & Hum & Hlr).
  unfold mouse_type, resize_code, asked.
  repeat split.
  - intros b Ht Hb. unfold UIManager_captureInput, t_bind, ask, t_ret.
    rewrite (decide_True _ _ Ht).
    destruct b; cbn [button_value] in Hb.
    + rewrite (decide_True _ _ Hb). walk answers; now rewrite map_app.
    + rewrite decide_False by congruence. rewrite (decide_True _ _ Hb).
      walk answers; now rewrite map_app.
  - intros b Ht Hb. unfold UIManager_captureInput, t_bind, ask, t_ret.
    rewrite decide_False by congruence. rewrite (decide_True _ _ Ht).
    destruct b; cbn [button_value] in Hb.
    + rewrite (decide_True _ _ Hb). walk answers; now rewrite map_app.
    + rewrite decide_False by congruence. rewrite (decide_True _ _ Hb).
      walk answers; now rewrite map_app.
  - intros Ht. unfold UIManager_captureInput, t_bind, ask, t_ret.
    rewrite decide_False by congruence. rewrite decide_False by congruence.
    rewrite (decide_True _ _ Ht). walk answers; now rewrite map_app.
  - intros Ht Hl Hr. unfold UIManager_captureInput, t_bind, ask, t_ret.
    destruct Ht as [Ht|Ht].
    + rewrite (decide_True _ _ Ht). now rewrite !decide_False by assumption.
    + rewrite decide_False by congruence. rewrite (decide_True _ _ Ht).
      now rewrite !decide_False by assumption.
  - intros Hm Hc. unfold UIManager_captureInput, UIManager_windowResized,
      t_bind, ask, t_ret.
    rewrite !decide_False by tauto. rewrite (decide_True _ _ Hc).
    destruct (answers RenderWindow_getMetrics (around r)) as [[m|e] w1];
      cbn [fields around made fst snd].
    + destruct (stored_metrics m) as [width height].
      walk answers; rewrite !map_app; cbn [map fst];
        rewrite <- app_assoc; eexists; reflexivity.
    + rewrite map_app. eexists. reflexivity.
  - intros Hm Hc. unfold UIManager_captureInput.
    now rewrite !decide_False by tauto.
Qed.

(** X15 at the values of SDL 2, for a press of the left button. *)
Lemma X15_captureInput_passes_every_mouse_input_on_witness :
  distinct_names SDL2 /\
  asked (snd (UIManager_captureInput quiet_gui binary32_of_Z SDL2 left_press fresh_ui)) =
    [GUIContext_injectMouseButtonDown LeftButton].
Proof.
  assert (distinct_names SDL2) as Hd by (repeat split; discriminate).
  split; [exact Hd|].
  destruct (X15_captureInput_passes_every_mouse_input_on Z unit quiet_gui
              binary32_of_Z SDL2 left_press fresh_ui Hd) as [Hdown _].
  exact (Hdown LeftButton eq_refl eq_refl).
Defined.

(** With binary32 [float]s, a resize of a window 16777217 wide and
    4294967295 high tells CEGUI of a size of 16777216 by 4294967296, and a
    motion to (16777217, -3) injects the position (16777216, -3). *)
Example captureInput_rounds_to_float :
  made (snd (UIManager_captureInput wide_window binary32_of_Z SDL2
               window_resized fresh_ui)) =
    [(RenderWindow_getMetrics, Answer (Metrics 16777217 4294967295));
     (System_notifyDisplaySizeChanged 16777216%Z 4294967296%Z, Answer NoValue)] /\
  asked (snd (UIManager_captureInput quiet_gui binary32_of_Z SDL2
                (MkEvent 1024 0 16777217 (-3) 0) fresh_ui)) =
    [GUIContext_injectMousePosition 16777216%Z (-3)%Z].
Proof. split; vm_compute; reflexivity. Qed.

(** * Properties of the RenderManager singleton *)

Section RenderSingletonFacts.
Context {Around : Type}.
Variable answers : RenderCall -> Around -> reply unit * Around.
Implicit Types r : @Run RenderStatics Around RenderCall unit.

Lemma render_getInstance_taken r a :
  render_instance_ (fields r) = Some a ->
  RenderManager_getInstance answers r = (Normal (Some a), r).
Proof.
  intros Hi. unfold RenderManager_getInstance, t_bind, get_fields, t_ret.
  now rewrite Hi.
Qed.

Lemma render_gets_taken (n : nat) r a :
  render_instance_ (fields r) = Some a ->
  render_gets answers n r = (Normal (replicate n (Some a)), r).
Proof.
  intros Hi. induction n as [|n IH]; [reflexivity|].
  cbn [render_gets replicate]. unfold t_bind at 1.
  rewrite (render_getInstance_taken r a Hi). unfold t_bind, t_ret.
  now rewrite IH.
Qed.

(** A first [getInstance]: the constructor runs; what was asked is a prefix
    of the constructor's calls, whole exactly when nothing threw. *)
Lemma render_getInstance_fresh r :
  render_instance_ (fields r) = None ->
  let a := render_next (fields r) in
  let out := RenderManager_getInstance answers r in
  exists suffix : list (RenderCall * reply unit),
    made (snd out) = (made r ++ suffix)%list /\
    map fst suffix = take (length suffix) render_ctor_calls /\
    render_next (fields (snd out)) = Pos.succ a /\
    ((fst out = Normal (Some a) /\
      length suffix = length render_ctor_calls /\
      render_instance_ (fields (snd out)) = Some a /\
      render_live (fields (snd out)) = <[a:=MkManager [] Render]> (render_live (fields r))) \/
     (exists e c,
        fst out = Raised e /\
        last suffix = Some (c, Thrown e) /\
        render_instance_ (fields (snd out)) = None /\
        render_live (fields (snd out)) =
          delete a (<[a:=MkManager [] Render]> (render_live (fields r))))).
Proof.
  intros Hi. cbv zeta.
  unfold RenderManager_getInstance, new_RenderManager, RenderManager_ctor_body,
    t_bind, ask, get_fields, set_fields, t_ret.
  rewrite Hi. cbn [fields around made fst snd render_instance_ render_live render_next].
  walk answers;
    cbn [fields around made fst snd render_instance_ render_live render_next];
    rewrite <- ?app_assoc; cbn [app];
    (eexists; split; [reflexivity|]; split; [reflexivity|];
     split; [reflexivity|]);
    first
      [ left; repeat split; reflexivity
      | right; eexists _, _; repeat split; first [reflexivity|exact Hi] ].
Qed.

End RenderSingletonFacts.

(** X16: the RenderManager is built by the first [getInstance] that
    completes, and only then.  On a process without RenderManager, a
    [getInstance] that returns has run the constructor once (the Ogre root,
    then the four component types "MeshComponent", "Camera",
    "LightComponent", "PlaneComponent", in this order) and every later
    [getInstance] returns the same pointer and calls nothing.  A
    [getInstance] whose constructor throws lets the exception out, leaves
    [instance_] null and the storage released, having stopped at the call
    that threw. *)
Theorem X16_RenderManager_is_built_once :
  forall (Around : Type) (answers : RenderCall -> Around -> reply unit * Around)
         (r : @Run RenderStatics Around RenderCall unit),
    render_instance_ (fields r) = None ->
    exists suffix : list (RenderCall * reply unit),
      made (snd (RenderManager_getInstance answers r)) = (made r ++ suffix)%list /\
      map fst suffix = take (length suffix) render_ctor_calls /\
      ((fst (RenderManager_getInstance answers r) = Normal (Some (render_next (fields r))) /\
        map fst suffix = render_ctor_calls /\
        render_live (fields (snd (RenderManager_getInstance answers r)))
          !! render_next (fields r) = Some (MkManager [] Render) /\
        forall n : nat,
          render_gets answers n (snd (RenderManager_getInstance answers r)) =
            (Normal (replicate n (Some (render_next (fields r)))),
             snd (RenderManager_getInstance answers r))) \/
       (exists (e : exn) (c : RenderCall),
          fst (RenderManager_getInstance answers r) = Raised e /\
          last suffix = Some (c, Thrown e) /\
          render_instance_ (fields (snd (RenderManager_getInstance answers r))) = None /\
          render_live (fields (snd (RenderManager_getInstance answers r)))
            !! render_next (fields r) = None)).
Proof.
  intros Around answers r Hi.
  destruct (render_getInstance_fresh answers r Hi)
    as (suffix & Hmade & Hcalls & Hnext & Hend).
  cbv zeta in Hmade, Hcalls, Hnext, Hend.
  exists suffix. split; [exact Hmade|]. split; [exact Hcalls|].
  destruct Hend as [(Hres & Hlen & Hinst & Hlive)|(e & c & Hres & Hlast & Hinst & Hlive)].
  - left. split; [exact Hres|]. split.
    + rewrite Hcalls, Hlen. reflexivity.
    + split; [rewrite Hlive; apply lookup_insert_eq|].
      intros n. now apply render_gets_taken.
  - right. exists e, c. repeat split; try assumption.
    rewrite Hlive. apply lookup_delete_eq.
Qed.

(** X16 on a process without RenderManager. *)
Lemma X16_RenderManager_is_built_once_witness :
  render_instance_ (fields no_render_manager) = None /\
  fst (RenderManager_getInstance quiet_render no_render_manager) =
    Normal (Some 1%positive) /\
  asked (snd (RenderManager_getInstance quiet_render no_render_manager)) =
    render_ctor_calls.
Proof.
  split; [reflexivity|].
  destruct (X16_RenderManager_is_built_once unit quiet_render no_render_manager
              eq_refl) as (suffix & Hmade & _).
  split; reflexivity.
Defined.

(** * Properties of [GLSLSeparableProgram] *)

Section SeparableProgramFacts.
Context {Around : Type}.
Variable answers : GLCall -> Around -> reply GLAnswer * Around.
Implicit Types r : @Run GLSLProgram Around GLCall GLAnswer.

Lemma link_each_run (l : list (option Shader)) :
  forall r (b : bool) r',
    link_each answers l r = (Normal b, r') ->
    exists (done : list Shader) (tail : list (GLCall * reply GLAnswer)),
      made r' = (made r ++ linked_ok done ++ tail)%list /\
      if b
      then fields r' = fields r /\ done = present l /\ tail = []
      else
        fields r' =
          MkProgram false (mGLProgramPipelineHandle (fields r)) (mShaders (fields r)) /\
        exists (s : Shader) (rest : list Shader),
          present l = (done ++ s :: rest)%list /\
          tail = [(Shader_linkSeparable (shader_at s), Answer (GLBool false))].
Proof.
  induction l as [|[s|] l IH]; intros r b r' Hrun.
  - injection Hrun as <- <-. exists [], []. cbn. rewrite app_nil_r. easy.
  - cbn [link_each] in Hrun. unfold t_bind at 1, ask in Hrun.
    destruct (answers (Shader_linkSeparable (shader_at s)) (around r))
      as [[[|[|]|h|n]|e] w1]; cbn [fields around made fst snd] in Hrun;
      try discriminate.
    + apply IH in Hrun as (done & tail & Hmade & Hend).
      cbn [fields around made] in Hmade, Hend.
      exists (s :: done), tail. split.
      * rewrite Hmade, <- app_assoc. reflexivity.
      * destruct b.
        -- destruct Hend as (Hf & -> & ->). easy.
        -- destruct Hend as (Hf & s' & rest & Hp & ->).
           split; [exact Hf|]. exists s', rest.
           change (present (Some s :: l)) with (s :: present l).
           now rewrite Hp.
    + unfold set_mLinked, t_bind, get_fields, set_fields, t_ret in Hrun.
      cbn [fields around made] in Hrun. injection Hrun as <- <-.
      exists [], [(Shader_linkSeparable (shader_at s), Answer (GLBool false))].
      cbn. split; [reflexivity|]. split; [reflexivity|].
      now exists s, (present l).
  - cbn [link_each] in Hrun. apply IH in Hrun as (done & tail & Hmade & Hend).
    now exists done, tail.
Qed.

Lemma attach_each_run (l : list (option Shader)) :
  forall r r',
    attach_each answers l r = (Normal tt, r') ->
    fields r' = fields r /\
    exists att : list (GLCall * reply GLAnswer),
      made r' = (made r ++ att)%list /\
      attached (mGLProgramPipelineHandle (fields r)) (present l) att.
Proof.
  induction l as [|[s|] l IH]; intros r r' Hrun.
  - injection Hrun as <-. split; [reflexivity|]. exists [].
    rewrite app_nil_r. split; [reflexivity|constructor].
  - cbn [attach_each] in Hrun.
    destruct (ogre2gltype !! shader_type s) as [bit|] eqn:Hbit; [|discriminate].
    unfold t_bind at 1, ask at 1 in Hrun.
    destruct (answers (Shader_getGLProgramHandle (shader_at s)) (around r))
      as [[[|b|program|n]|e] w1]; cbn [fields around made fst snd] in Hrun;
      try discriminate.
    unfold t_bind at 1, get_fields at 1 in Hrun.
    cbn [fields around made fst snd] in Hrun.
    unfold t_bind at 1, ask at 1 in Hrun.
    cbn [fields around made fst snd] in Hrun.
    destruct (answers (glUseProgramStages (mGLProgramPipelineHandle (fields r))
                         bit program) w1)
      as [[x|e] w2]; cbn [fields around made fst snd] in Hrun;
      try discriminate.
    apply IH in Hrun as (Hf & att & Hmade & Hatt).
    cbn [fields around made] in Hf, Hmade, Hatt.
    split; [exact Hf|]. eexists. split.
    + rewrite Hmade, <- !app_assoc. cbn [app]. reflexivity.
    + change (present (Some s :: l)) with (s :: present l). now constructor.
  - cbn [attach_each] in Hrun. now apply IH.
Qed.

Lemma t_bind_normal {A B} (m : @T GLSLProgram Around GLCall GLAnswer A)
    (k : A -> @T GLSLProgram Around GLCall GLAnswer B) r (b : B) r' :
  t_bind m k r = (Normal b, r') ->
  exists (a : A) r1, m r = (Normal a, r1) /\ k a r1 = (Normal b, r').
Proof.
  unfold t_bind. destruct (m r) as [[a|e|] r1]; try discriminate.
  intros H. now exists a, r1.
Qed.

Lemma ask_normal (c : GLCall) r (a : GLAnswer) r1 :
  ask answers c r = (Normal a, r1) ->
  fields r1 = fields r /\ made r1 = (made r ++ [(c, Answer a)])%list.
Proof.
  unfold ask. destruct (answers c (around r)) as [[a'|e] w1]; [|discriminate].
  intros [= <- <-]. easy.
Qed.

Lemma gen_pipeline_normal r r1 :
  gen_pipeline answers r = (Normal tt, r1) ->
  exists gen : GLAnswer,
    made r1 = (made r ++ [(glGenProgramPipelines, Answer gen)])%list /\
    fields r1 =
      MkProgram (mLinked (fields r))
                (handle_after gen (mGLProgramPipelineHandle (fields r)))
                (mShaders (fields r)).
Proof.
  unfold gen_pipeline. intros H.
  apply t_bind_normal in H as (gen & r2 & Hask & H).
  apply ask_normal in Hask as [Hf Hm].
  exists gen. unfold t_bind, get_fields, set_fields, t_ret in H.
  destruct gen; injection H as <-; cbn; rewrite ?Hf; (split; [exact Hm|]);
    now destruct (fields r).
Qed.

Lemma compileAndLink_run r r' :
  GLSLSeparableProgram_compileAndLink answers r = (Normal tt, r') ->
  exists (x gen : GLAnswer) (done : list Shader)
         (tail : list (GLCall * reply GLAnswer)),
    made r' =
      (made r
       ++ (glUseProgram 0, Answer x)
       :: (glGenProgramPipelines, Answer gen)
       :: linked_ok done ++ tail)%list /\
    mShaders (fields r') = mShaders (fields r) /\
    mGLProgramPipelineHandle (fields r') =
      handle_after gen (mGLProgramPipelineHandle (fields r)) /\
    if mLinked (fields r')
    then
      done = present (mShaders (fields r)) /\
      exists (att : list (GLCall * reply GLAnswer)) (y z : GLAnswer) (name : string),
        attached (mGLProgramPipelineHandle (fields r'))
                 (present (mShaders (fields r))) att /\
        tail =
          (att
           ++ [(glValidateProgramPipeline (mGLProgramPipelineHandle (fields r')),
                Answer y);
               (getCombinedName, Answer (GLString name));
               (logObjectInfo (name +:+ "GLSL program pipeline validation result: ")
                  (mGLProgramPipelineHandle (fields r')),
                Answer z)])%list
    else
      exists (s : Shader) (rest : list Shader),
        present (mShaders (fields r)) = (done ++ s :: rest)%list /\
        tail = [(Shader_linkSeparable (shader_at s), Answer (GLBool false))].
Proof.
  unfold GLSLSeparableProgram_compileAndLink. intros H.
  apply t_bind_normal in H as (x & r1 & Hask1 & H).
  apply ask_normal in Hask1 as [Hf1 Hm1].
  apply t_bind_normal in H as ([] & r2 & Hgen & H).
  apply gen_pipeline_normal in Hgen as (gen & Hm2 & Hf2).
  apply t_bind_normal in H as ([] & r3 & Hset & H).
  unfold set_mLinked, t_bind, get_fields, set_fields in Hset.
  injection Hset as <-.
  apply t_bind_normal in H as (f & r4 & Hget & H).
  unfold get_fields in Hget. injection Hget as <- <-.
  cbn [fields mShaders] in H.
  apply t_bind_normal in H as (go_on & r5 & Hlink & H).
  apply link_each_run in Hlink as (done & tail & Hm5 & Hend).
  cbn [fields around made mGLProgramPipelineHandle mShaders] in Hm5, Hend.
  rewrite Hf2, Hf1 in Hend, H. cbn [mShaders mGLProgramPipelineHandle] in Hend, H.
  rewrite Hm2, Hm1 in Hm5.
  exists x, gen, done.
  destruct go_on.
  - destruct Hend as (Hf5 & -> & ->).
    apply t_bind_normal in H as ([] & r6 & Hatt & H).
    apply attach_each_run in Hatt as (Hf6 & att & Hm6 & Hatt).
    rewrite Hf5 in Hf6, Hatt. cbn [mGLProgramPipelineHandle] in Hatt.
    apply t_bind_normal in H as (f' & r7 & Hget & H).
    unfold get_fields in Hget. injection Hget as <- <-.
    rewrite Hf6 in H. cbn [mGLProgramPipelineHandle] in H.
    apply t_bind_normal in H as (y & r8 & Hask8 & H).
    apply ask_normal in Hask8 as [Hf8 Hm8].
    apply t_bind_normal in H as (n & r9 & Hask9 & H).
    apply ask_normal in Hask9 as [Hf9 Hm9].
    destruct n as [| |h|name]; try discriminate.
    apply t_bind_normal in H as (z & r10 & Hask10 & H).
    apply ask_normal in Hask10 as [Hf10 Hm10].
    unfold t_ret in H. injection H as <-.
    rewrite Hf10, Hf9, Hf8, Hf6. cbn [mLinked mShaders mGLProgramPipelineHandle].
    eexists. split.
    + rewrite Hm10, Hm9, Hm8, Hm6, Hm5.
      repeat (rewrite <- ?app_assoc; cbn [app]). reflexivity.
    + split; [reflexivity|]. split; [reflexivity|]. split; [reflexivity|].
      now exists att, y, z, name.
  - destruct Hend as (Hf5 & s & rest & Hp & ->).
    unfold t_ret in H. injection H as <-.
    rewrite Hf5. cbn [mLinked mShaders mGLProgramPipelineHandle].
    eexists. split.
    + rewrite Hm5. repeat (rewrite <- ?app_assoc; cbn [app]). reflexivity.
    + split; [reflexivity|]. split; [reflexivity|]. now exists s, rest.
Qed.

Lemma activate_run r r' :
  GLSLSeparableProgram_activate answers r = (Normal tt, r') ->
  if mLinked (fields r)
  then
    fields r' = fields r /\
    exists x : GLAnswer,
      made r' =
        (made r ++ [(bindGLProgramPipeline (mGLProgramPipelineHandle (fields r)),
                     Answer x)])%list
  else
    exists (r1 : Run) (x : GLAnswer),
      GLSLSeparableProgram_compileAndLink answers r = (Normal tt, r1) /\
      fields r' = fields r1 /\
      if mLinked (fields r1)
      then
        exists y : GLAnswer,
          made r' =
            (made r1
             ++ [(extractLayoutQualifiers, Answer x);
                 (bindGLProgramPipeline (mGLProgramPipelineHandle (fields r1)),
                  Answer y)])%list
      else made r' = (made r1 ++ [(extractLayoutQualifiers, Answer x)])%list.
Proof.
  unfold GLSLSeparableProgram_activate. intros H.
  apply t_bind_normal in H as (f & r0 & Hget & H).
  unfold get_fields in Hget. injection Hget as <- <-.
  apply t_bind_normal in H as ([] & r2 & Hfirst & H).
  apply t_bind_normal in H as (f' & r3 & Hget & H).
  unfold get_fields in Hget. injection Hget as <- <-.
  destruct (mLinked (fields r)) eqn:Hl; cbn [negb] in Hfirst.
  - unfold t_ret in Hfirst. injection Hfirst as <-. rewrite Hl in H.
    apply t_bind_normal in H as (x & r4 & Hask & H).
    apply ask_normal in Hask as [Hf Hm].
    unfold t_ret in H. injection H as <-. split; [exact Hf|]. now exists x.
  - apply t_bind_normal in Hfirst as ([] & r1 & Hcl & Hfirst).
    apply t_bind_normal in Hfirst as (x & r4 & Hask & Hfirst).
    apply ask_normal in Hask as [Hf4 Hm4].
    unfold t_ret in Hfirst. injection Hfirst as <-.
    exists r1, x. split; [exact Hcl|].
    rewrite Hf4 in H. destruct (mLinked (fields r1)).
    + apply t_bind_normal in H as (y & r5 & Hask & H).
      apply ask_normal in Hask as [Hf5 Hm5].
      unfold t_ret in H. injection H as <-.
      split; [now rewrite Hf5|]. exists y.
      rewrite Hm5, Hm4, <- app_assoc. reflexivity.
    + unfold t_ret in H. injection H as <-. split; [exact Hf4|exact Hm4].
Qed.

End SeparableProgramFacts.

(** X17: [compileAndLink] gives up at the first shader that does not link.
    When it returns with [mLinked] false, the shaders of the slots before
    the failing one have linked, the failing one was asked last, and nothing
    came after: the later shaders were not linked, no stage was attached,
    the pipeline was not validated.  The pipeline generated at the start is
    kept as the program's handle. *)
Theorem X17_compileAndLink_stops_at_first_failed_link :
  forall (Around : Type) (answers : GLCall -> Around -> reply GLAnswer * Around)
         (r r' : @Run GLSLProgram Around GLCall GLAnswer),
    GLSLSeparableProgram_compileAndLink answers r = (Normal tt, r') ->
    mLinked (fields r') = false ->
    exists (x gen : GLAnswer) (done : list Shader) (s : Shader) (rest : list Shader),
      present (mShaders (fields r)) = (done ++ s :: rest)%list /\
      made r' =
        (made r
         ++ (glUseProgram 0, Answer x)
         :: (glGenProgramPipelines, Answer gen)
         :: linked_ok done
         ++ [(Shader_linkSeparable (shader_at s), Answer (GLBool false))])%list /\
      mGLProgramPipelineHandle (fields r') =
        handle_after gen (mGLProgramPipelineHandle (fields r)) /\
      mShaders (fields r') = mShaders (fields r).
Proof.
  intros Around answers r r' Hrun Hl.
  destruct (compileAndLink_run answers r r' Hrun)
    as (x & gen & done & tail & Hmade & Hs & Hh & Hend).
  rewrite Hl in Hend. destruct Hend as (s & rest & Hp & ->).
  now exists x, gen, done, s, rest.
Qed.

(** X17 on a program whose second shader does not link. *)
Lemma X17_compileAndLink_stops_at_first_failed_link_witness :
  GLSLSeparableProgram_compileAndLink gl_script second_link_fails =
    (Normal tt, snd (GLSLSeparableProgram_compileAndLink gl_script second_link_fails)) /\
  mLinked (fields (snd (GLSLSeparableProgram_compileAndLink gl_script
                          second_link_fails))) = false /\
  asked (snd (GLSLSeparableProgram_compileAndLink gl_script second_link_fails)) =
    [glUseProgram 0; glGenProgramPipelines;
     Shader_linkSeparable 1%positive; Shader_linkSeparable 2%positive].
Proof.
  split; [reflexivity|]. split; [reflexivity|].
  destruct (X17_compileAndLink_stops_at_first_failed_link _ gl_script
              second_link_fails
              (snd (GLSLSeparableProgram_compileAndLink gl_script second_link_fails))
              eq_refl eq_refl) as (x & gen & done & s & rest & _ & Hmade & _).
  reflexivity.
Defined.

(** X18: a [compileAndLink] that returns with [mLinked] true has linked
    every shader of a slot that is not null, in slot order, before it
    attached any; it has then attached each of them once, in slot order, to
    the pipeline generated at the start, under the stage bit that
    [ogre2gltype] holds for the shader's type and with the program the
    shader reported; and it has validated that pipeline and logged the
    result under the program's combined name. *)
Theorem X18_compileAndLink_attaches_every_shader_once :
  forall (Around : Type) (answers : GLCall -> Around -> reply GLAnswer * Around)
         (r r' : @Run GLSLProgram Around GLCall GLAnswer),
    GLSLSeparableProgram_compileAndLink answers r = (Normal tt, r') ->
    mLinked (fields r') = true ->
    exists (x gen y z : GLAnswer) (name : string)
           (att : list (GLCall * reply GLAnswer)),
      mGLProgramPipelineHandle (fields r') =
        handle_after gen (mGLProgramPipelineHandle (fields r)) /\
      attached (mGLProgramPipelineHandle (fields r'))
               (present (mShaders (fields r))) att /\
      made r' =
        (made r
         ++ (glUseProgram 0, Answer x)
         :: (glGenProgramPipelines, Answer gen)
         :: linked_ok (present (mShaders (fields r)))
         ++ att
         ++ [(glValidateProgramPipeline (mGLProgramPipelineHandle (fields r')),
              Answer y);
             (getCombinedName, Answer (GLString name));
             (logObjectInfo (name +:+ "GLSL program pipeline validation result: ")
                (mGLProgramPipelineHandle (fields r')),
              Answer z)])%list.
Proof.
  intros Around answers r r' Hrun Hl.
  destruct (compileAndLink_run answers r r' Hrun)
    as (x & gen & done & tail & Hmade & Hs & Hh & Hend).
  rewrite Hl in Hend. destruct Hend as (-> & att & y & z & name & Hatt & ->).
  now exists x, gen, y, z, name, att.
Qed.

(** X18 on a program whose two shaders link. *)
Lemma X18_compileAndLink_attaches_every_shader_once_witness :
  GLSLSeparableProgram_compileAndLink gl_script all_links_succeed =
    (Normal tt, snd (GLSLSeparableProgram_compileAndLink gl_script all_links_succeed)) /\
  mLinked (fields (snd (GLSLSeparableProgram_compileAndLink gl_script
                          all_links_succeed))) = true /\
  asked (snd (GLSLSeparableProgram_compileAndLink gl_script all_links_succeed)) =
    [glUseProgram 0; glGenProgramPipelines;
     Shader_linkSeparable 1%positive; Shader_linkSeparable 2%positive;
     Shader_getGLProgramHandle 1%positive;
     glUseProgramStages 7 GL_VERTEX_SHADER_BIT 11;
     Shader_getGLProgramHandle 2%positive;
     glUseProgramStages 7 GL_FRAGMENT_SHADER_BIT 12;
     glValidateProgramPipeline 7; getCombinedName;
     logObjectInfo "p GLSL program pipeline validation result: " 7].
Proof.
  split; [reflexivity|]. split; [reflexivity|].
  destruct (X18_compileAndLink_attaches_every_shader_once _ gl_script
              all_links_succeed
              (snd (GLSLSeparableProgram_compileAndLink gl_script all_links_succeed))
              eq_refl eq_refl) as (x & gen & y & z & name & att & _).
  reflexivity.
Defined.

(** X19: [activate] binds the pipeline exactly when the program is linked
    by the time it gets there.  A linked program is bound, with its handle,
    and nothing else happens.  A program that is not linked is compiled and
    linked first and its layout qualifiers are extracted, whether or not
    the link succeeded; it is bound afterwards, with the handle of the new
    pipeline, only if the link succeeded.  A program whose link failed is
    still not linked, so the next [activate] goes through all of it again. *)
Theorem X19_activate_binds_only_a_linked_program :
  forall (Around : Type) (answers : GLCall -> Around -> reply GLAnswer * Around)
         (r r' : @Run GLSLProgram Around GLCall GLAnswer),
    GLSLSeparableProgram_activate answers r = (Normal tt, r') ->
    if mLinked (fields r)
    then
      fields r' = fields r /\
      exists x : GLAnswer,
        made r' =
          (made r ++ [(bindGLProgramPipeline (mGLProgramPipelineHandle (fields r)),
                       Answer x)])%list
    else
      exists (r1 : @Run GLSLProgram Around GLCall GLAnswer) (x : GLAnswer),
        GLSLSeparableProgram_compileAndLink answers r = (Normal tt, r1) /\
        fields r' = fields r1 /\
        if mLinked (fields r1)
        then
          exists y : GLAnswer,
            made r' =
              (made r1
               ++ [(extractLayoutQualifiers, Answer x);
                   (bindGLProgramPipeline (mGLProgramPipelineHandle (fields r1)),
                    Answer y)])%list
        else made r' = (made r1 ++ [(extractLayoutQualifiers, Answer x)])%list.
Proof.
  intros Around answers r r' Hrun. exact (activate_run answers r r' Hrun).
Qed.

(** X19 on a program whose second shader does not link. *)
Lemma X19_activate_binds_only_a_linked_program_witness :
  GLSLSeparableProgram_activate gl_script second_link_fails =
    (Normal tt, snd (GLSLSeparableProgram_activate gl_script second_link_fails)) /\
  mLinked (fields second_link_fails) = false /\
  asked (snd (GLSLSeparableProgram_activate gl_script second_link_fails)) =
    [glUseProgram 0; glGenProgramPipelines;
     Shader_linkSeparable 1%positive; Shader_linkSeparable 2%positive;
     extractLayoutQualifiers].
Proof.
  split; [reflexivity|]. split; [reflexivity|].
  pose proof (X19_activate_binds_only_a_linked_program _ gl_script
                second_link_fails
                (snd (GLSLSeparableProgram_activate gl_script second_link_fails))
                eq_refl) as H.
  reflexivity.
Defined.
